(** * Paint mixing plant operator GUI (src/gui.py)

    A shallow embedding of the monitoring logic of the operator GUI:
    the threshold alarms raised by [ColorMixingStationOverviewWidget],
    the rotating alarm panel of [Gui], the polling loop of
    [TangoBackgroundWorker] and the debounced valve slider of
    [PaintTankWidget].

    Conventions of the embedding.
    - A Python float is represented by the rational number it denotes
      ([Q]); the order comparisons of the source are exact on floats, and
      the products [level*10] and [valve*100] are taken exactly.  Where
      the value of a float operation matters, module [Fl] has the same
      code on binary64 floats.
    - A callback that the source invokes ([wrt_alarm], a Qt signal, a
      write worker handed to the thread pool) becomes an output list of
      the embedded function, in call order.
    - The wall clock and the Qt timer queue are inputs: handlers that read
      the time take it as an argument.  Module [EventLoop] fires a timer
      at its nominal time; module [Loop] takes the timer events as they
      come, no earlier than a coarse timer may fire.
    - Rendering (label texts, painting, [update()]) is left out. *)

From Stdlib Require Import ZArith QArith Qround Qabs String List Lia Bool DecimalString.
From Stdlib Require Import PrimFloat SpecFloat FloatOps.
From stdpp Require Import gmap strings list.

#[local] Set Warnings "-inexact-float".

Local Open Scope Q_scope.

(** ** Python primitives used by the source *)

Module Py.

(** [x < y] on floats. *)
Definition ltb (x y : Q) : bool :=
  match Qcompare x y with Lt => true | _ => false end.

(** [x <= y] on floats. *)
Definition leb (x y : Q) : bool :=
  match Qcompare x y with Gt => false | _ => true end.

(** [x > y] and [x >= y] are the reflected comparisons. *)
Definition gtb (x y : Q) : bool := ltb y x.
Definition geb (x y : Q) : bool := leb y x.

(** [int(x)]: truncation towards zero. *)
Definition int (x : Q) : Z := Z.quot (Qnum x) (Zpos (Qden x)).

(** [str(n)] for an integer. *)
Definition str (n : Z) : string := NilZero.string_of_int (Z.to_int n).

(** Rounding to the nearest integer, ties to even: the rounding of the
    ['f'] presentation type with precision 0. *)
Definition round_half_even (x : Q) : Z :=
  let f := Qfloor x in
  match Qcompare (x - inject_Z f) (1 # 2) with
  | Lt => f
  | Gt => (f + 1)%Z
  | Eq => if Z.even f then f else (f + 1)%Z
  end.

(** [f'{x:.0%}']: the value times 100, no decimals, then a percent sign.
    A negative value that rounds to zero keeps its sign. *)
Definition format_percent0 (x : Q) : string :=
  let r := round_half_even (x * 100) in
  ((if ltb x 0 && (r =? 0)%Z then "-0" else str r) +:+ "%")%string.

(** [f'{n:02}'] for an integer: zero padded to width 2. *)
Definition format_02 (n : Z) : string :=
  if ((0 <=? n) && (n <? 10))%Z then ("0" +:+ str n)%string else str n.

End Py.

Notation "x <? y" := (Py.ltb x y) : Q_scope.
Notation "x <=? y" := (Py.leb x y) : Q_scope.
Notation "x >? y" := (Py.gtb x y) : Q_scope.
Notation "x >=? y" := (Py.geb x y) : Q_scope.

(** ** Threshold alarms: [ColorMixingStationOverviewWidget.check_alarm_generation] *)

(** The text handed to [wrt_alarm]; [suffix] is ["full"] or ["remaining"]. *)
Definition alarm_text (station_name tank_name : string) (level : Q) (suffix : string) : string :=
  (station_name +:+ "/" +:+ tank_name +:+ " : "
     +:+ Py.format_percent0 (inject_Z (Py.int (level * 10)) / 10)
     +:+ " " +:+ suffix)%string.

(** The result is the list of texts passed to [self.wrt_alarm], in call
    order. *)
Definition check_alarm_generation
    (station_name : string) (previous_level level : Q) (tank_name : string) : list string :=
  if String.eqb tank_name "mixer" then
    if (previous_level <? 0.8) && (level >=? 0.8) || (previous_level <? 0.9) && (level >=? 0.9)
    then [alarm_text station_name tank_name level "full"]
    else []
  else
    if (previous_level >? 0.2) && (level <=? 0.2) || (previous_level >? 0.1) && (level <=? 0.1)
    then [alarm_text station_name tank_name level "remaining"]
    else [].

(** *** The detector as the specification words it *)

Inductive role := Ascending | Descending.

(** The mixer has the ascending role, every other tank the descending one. *)
Definition role_of (tank_name : string) : role :=
  if String.eqb tank_name "mixer" then Ascending else Descending.

Definition thresholds (r : role) : list Q :=
  match r with
  | Ascending => [0.8; 0.9]
  | Descending => [0.2; 0.1]
  end.

(** The crossing condition of threshold [t] between [last] and [level]. *)
Definition crosses (r : role) (last t level : Q) : Prop :=
  match r with
  | Ascending => last < t /\ t <= level
  | Descending => t < last /\ level <= t
  end.

Definition crossesb (r : role) (last t level : Q) : bool :=
  match r with
  | Ascending => (last <? t) && (t <=? level)
  | Descending => (t <? last) && (level <=? t)
  end.

(** One record per crossed threshold, in threshold order. *)
Definition spec_fired (r : role) (last level : Q) : list Q :=
  List.filter (fun t => crossesb r last t level) (thresholds r).

(** The message form of each role. *)
Definition message_form (r : role) : string :=
  match r with Ascending => "full" | Descending => "remaining" end.

(** ** Tango names *)

Definition TANGO_NAME_PREFIX : string := "epfl".
Definition TANGO_ATTRIBUTE_LEVEL : string := "level".
Definition TANGO_ATTRIBUTE_VALVE : string := "valve".
Definition TANGO_ATTRIBUTE_FLOW : string := "flow".
Definition TANGO_ATTRIBUTE_COLOR : string := "color".

(** ["%s/%s/%s/%s" % (TANGO_NAME_PREFIX, station_name, device, attribute)] *)
Definition attribute_path (station_name device attribute : string) : string :=
  (TANGO_NAME_PREFIX +:+ "/" +:+ station_name +:+ "/" +:+ device +:+ "/" +:+ attribute)%string.

(** A [TangoWriteAttributeWorker] handed to the thread pool. *)
Record TangoWriteAttributeWorker := mkWrite { write_path : string; write_value : Q }.

(** ** [TankWidget] *)

Module TankWidget.

Record t := mk {
  fill_color : string;
  fill_level : Q;
  tank_height : Z;
  tank_width : Z;
  valve : Q;
  flow : Q
}.

(** [__init__(self, tank_width, tank_height=200, level=0)] *)
Definition init (tank_width tank_height : Z) (level : Q) : t :=
  {| fill_color := "grey"; fill_level := level; tank_height := tank_height;
     tank_width := tank_width; valve := 0; flow := 0 |}.

Definition set_fill_level (self : t) (level : Q) : t :=
  {| fill_color := fill_color self; fill_level := level; tank_height := tank_height self;
     tank_width := tank_width self; valve := valve self; flow := flow self |}.

Definition setValve (self : t) (v : Q) : t :=
  {| fill_color := fill_color self; fill_level := fill_level self; tank_height := tank_height self;
     tank_width := tank_width self; valve := v; flow := flow self |}.

Definition setFlow (self : t) (f : Q) : t :=
  {| fill_color := fill_color self; fill_level := fill_level self; tank_height := tank_height self;
     tank_width := tank_width self; valve := valve self; flow := f |}.

Definition setColor (self : t) (color : string) : t :=
  {| fill_color := color; fill_level := fill_level self; tank_height := tank_height self;
     tank_width := tank_width self; valve := valve self; flow := flow self |}.

End TankWidget.

(** ** [PaintTankWidget]: one tank, its valve slider and the settle timer *)

Module PaintTankWidget.

(** [slider_value] and [slider_down] are the state of the [QSlider]
    ([value()], [isSliderDown()]).  [timer_slider] is [None] or the
    pending timer; the opaque Qt timer id is represented by the time, in
    milliseconds, at which that timer fires. *)
Record t := mk {
  station_name : string;
  tank_name : string;
  tank : TankWidget.t;
  slider_value : Z;
  slider_down : bool;
  timer_slider : option Z
}.

Definition set_tank (self : t) (tk : TankWidget.t) : t :=
  {| station_name := station_name self; tank_name := tank_name self; tank := tk;
     slider_value := slider_value self; slider_down := slider_down self;
     timer_slider := timer_slider self |}.

Definition set_slider_value (self : t) (v : Z) : t :=
  {| station_name := station_name self; tank_name := tank_name self; tank := tank self;
     slider_value := v; slider_down := slider_down self;
     timer_slider := timer_slider self |}.

Definition set_slider_down (self : t) (b : bool) : t :=
  {| station_name := station_name self; tank_name := tank_name self; tank := tank self;
     slider_value := slider_value self; slider_down := b;
     timer_slider := timer_slider self |}.

Definition set_timer_slider (self : t) (tm : option Z) : t :=
  {| station_name := station_name self; tank_name := tank_name self; tank := tank self;
     slider_value := slider_value self; slider_down := slider_down self;
     timer_slider := tm |}.

(** The write worker built from the current slider position:
    [TangoWriteAttributeWorker(station, tank, TANGO_ATTRIBUTE_VALVE, self.slider.value() / 100.0)]. *)
Definition valve_write (self : t) : TangoWriteAttributeWorker :=
  mkWrite (attribute_path (station_name self) (tank_name self) TANGO_ATTRIBUTE_VALVE)
          (inject_Z (slider_value self) / 100).

(** [__init__]: the slider starts at 0 with range 0..100, no timer is
    pending, the tank widget is [TankWidget(width)], and one write of the
    closed valve is started.  The second component is the list of write
    workers started by the constructor. *)
Definition init (station_name tank_name : string) (width : Z) : t * list TangoWriteAttributeWorker :=
  let self :=
    {| station_name := station_name; tank_name := tank_name;
       tank := TankWidget.init width 200 0;
       slider_value := 0; slider_down := false; timer_slider := None |} in
  (set_tank self (TankWidget.setValve (tank self) 0), [valve_write self]).

(** [changedValue]: slot of [slider.valueChanged]; [now] is the clock of
    the Qt event loop in milliseconds.  Killing the old timer and
    starting a new one replaces the pending deadline. *)
Definition changedValue (now : Z) (self : t) : t :=
  set_timer_slider self (Some (now + 200)%Z).

(** [timerEvent]: the timer is killed and one write of the slider
    position is started. *)
Definition timerEvent (self : t) : t * list TangoWriteAttributeWorker :=
  (set_timer_slider self None, [valve_write self]).

(** Qt's [QAbstractSlider.setValue] on a slider of range 0..100 with
    [changedValue] connected to [valueChanged]: the value is clamped to
    the range, and the signal is emitted only when the value changes. *)
Definition slider_setValue (now : Z) (self : t) (v : Z) : t :=
  let v' := Z.max 0 (Z.min 100 v) in
  if (v' =? slider_value self)%Z then self
  else changedValue now (set_slider_value self v').

(** [setValve]: slot of the polled valve value and of the read-back of a
    finished write. *)
Definition setValve (now : Z) (self : t) (valve : Q) : t :=
  match timer_slider self with
  | None =>
      if negb (slider_down self) then
        let self1 := slider_setValue now self (Py.int (valve * 100)) in
        set_tank self1 (TankWidget.setValve (tank self1) (valve * 100))
      else self
  | Some _ => self
  end.


Definition setFlow (self : t) (flow : Q) : t :=
  set_tank self (TankWidget.setFlow (tank self) flow).

Definition setColor (self : t) (color : string) : t :=
  set_tank self (TankWidget.setColor (tank self) color).

End PaintTankWidget.

(** ** The Qt event loop seen by one [PaintTankWidget] *)

Module EventLoop.

Import PaintTankWidget.

(** What can reach the widget, apart from its own timer:
    - [ValueChanged v]: the user moved the slider, which took the value
      [v] and emitted [valueChanged], the valve-ratio request;
    - [SliderPressed], [SliderReleased]: the user holds or lets go of
      the slider handle;
    - [ValveDone], [FlowDone], [ColorDone]: [done] signals of the polling
      worker or of a finished write worker. *)
Inductive event :=
| ValueChanged (v : Z)
| SliderPressed
| SliderReleased
| ValveDone (valve : Q)
| FlowDone (flow : Q)
| ColorDone (color : string).

Definition handle (now : Z) (e : event) (self : t) : t :=
  match e with
  | ValueChanged v => changedValue now (set_slider_value self v)
  | SliderPressed => set_slider_down self true
  | SliderReleased => set_slider_down self false
  | ValveDone valve => setValve now self valve
  | FlowDone flow => setFlow self flow
  | ColorDone color => setColor self color
  end.

(** A pending timer whose time has come delivers its [timerEvent]. *)
Definition fire_due (now : Z) (self : t) : t * list TangoWriteAttributeWorker :=
  match timer_slider self with
  | Some deadline => if (deadline <=? now)%Z then timerEvent self else (self, [])
  | None => (self, [])
  end.

(** An event stamped [now] is handled after the timer event that was due
    by then. *)
Definition step (self : t) (te : Z * event) : t * list TangoWriteAttributeWorker :=
  let (s1, ws) := fire_due (fst te) self in (handle (fst te) (snd te) s1, ws).

(** A time-stamped sequence of events; the writes started on the way are
    collected in order. *)
Fixpoint run (self : t) (evs : list (Z * event)) : t * list TangoWriteAttributeWorker :=
  match evs with
  | [] => (self, [])
  | te :: evs' =>
      let (s1, ws1) := step self te in
      let (s2, ws2) := run s1 evs' in
      (s2, ws1 ++ ws2)
  end.

(** The events, then quiet until the time [T]. *)
Definition run_until (T : Z) (self : t) (evs : list (Z * event)) : t * list TangoWriteAttributeWorker :=
  let (s1, ws1) := run self evs in
  let (s2, ws2) := fire_due T s1 in
  (s2, ws1 ++ ws2).

End EventLoop.

(** ** [ColorMixingStationWidget]: the six tanks of a station *)

Module ColorMixingStationWidget.

Record t := mk {
  station_name : string;
  tanks : gmap string PaintTankWidget.t
}.

Definition tank_specs : list (string * Z) :=
  [("cyan", 150%Z); ("magenta", 150%Z); ("yellow", 150%Z);
   ("black", 150%Z); ("white", 150%Z); ("mixer", 860%Z)]%string.

Definition init (station_name : string) : t :=
  {| station_name := station_name;
     tanks := list_to_map
                (map (fun nw => (fst nw, fst (PaintTankWidget.init station_name (fst nw) (snd nw))))
                     tank_specs) |}.

End ColorMixingStationWidget.

(** ** [ColorMixingStationOverviewWidget] *)

Module ColorMixingStationOverviewWidget.

Record t := mk {
  station_name : string;
  station : ColorMixingStationWidget.t
}.

Definition init (station_name : string) : t :=
  {| station_name := station_name; station := ColorMixingStationWidget.init station_name |}.

Definition set_tank (self : t) (tank_name : string) (w : PaintTankWidget.t) : t :=
  {| station_name := station_name self;
     station := {| ColorMixingStationWidget.station_name :=
                     ColorMixingStationWidget.station_name (station self);
                   ColorMixingStationWidget.tanks :=
                     <[tank_name := w]> (ColorMixingStationWidget.tanks (station self)) |} |}.

(** [setLevel(self, level, tank_name)]: the alarm check against the
    stored [fill_level], then the store.  [None] is the [KeyError] of
    [self.station.tanks[tank_name]]; the list holds the calls of
    [wrt_alarm]. *)
Definition setLevel (self : t) (level : Q) (tank_name : string) : option (t * list string) :=
  match ColorMixingStationWidget.tanks (station self) !! tank_name with
  | None => None
  | Some w =>
      let alarms :=
        check_alarm_generation (station_name self)
          (TankWidget.fill_level (PaintTankWidget.tank w)) level tank_name in
      Some (set_tank self tank_name
              (PaintTankWidget.set_tank w
                 (TankWidget.set_fill_level (PaintTankWidget.tank w) level)),
            alarms)
  end.

(** The level samples of one tank, in arrival order, with the alarms
    each of them raised. *)
Fixpoint feed (self : t) (tank_name : string) (levels : list Q) : option (t * list (list string)) :=
  match levels with
  | [] => Some (self, [])
  | level :: levels' =>
      match setLevel self level tank_name with
      | None => None
      | Some (self1, alarms) =>
          match feed self1 tank_name levels' with
          | None => None
          | Some (self2, rest) => Some (self2, alarms :: rest)
          end
      end
  end.

End ColorMixingStationOverviewWidget.

(** ** The alarm panel of [Gui] *)

(** The fields of [time.localtime()] that the time stamp prints. *)
Record struct_time := mkTime {
  tm_year : Z; tm_mon : Z; tm_mday : Z; tm_hour : Z; tm_min : Z; tm_sec : Z
}.

Definition timestamp (now : struct_time) : string :=
  (Py.format_02 (tm_mday now) +:+ "/" +:+ Py.format_02 (tm_mon now) +:+ "/" +:+ Py.str (tm_year now)
     +:+ " " +:+ Py.format_02 (tm_hour now) +:+ ":" +:+ Py.format_02 (tm_min now)
     +:+ ":" +:+ Py.format_02 (tm_sec now))%string.

(** [reversed(range(1, n))] *)
Definition reversed_range_1 (n : nat) : list nat := reverse (seq 1 (n - 1)).

(** One turn of the loop: [alarm_labels[i].setText(alarm_labels[i-1].text())]. *)
Definition shift_label (labels : list string) (i : nat) : list string :=
  match labels !! (i - 1)%nat with
  | Some text => <[i := text]> labels
  | None => labels
  end.

(** [Gui.write_new_alarm] on the texts of [self.alarm_labels]; [None] is
    the [IndexError] of [self.alarm_labels[0]] on an empty panel. *)
Definition write_new_alarm (now : struct_time) (alarm_text : string) (alarm_labels : list string)
  : option (list string) :=
  let shifted := foldl shift_label alarm_labels (reversed_range_1 (length alarm_labels)) in
  match shifted with
  | [] => None
  | _ :: _ => Some (<[0%nat := (timestamp now +:+ " : " +:+ alarm_text)%string]> shifted)
  end.

(** Successive calls of [write_new_alarm], each with its own clock reading. *)
Fixpoint write_alarms (calls : list (struct_time * string)) (alarm_labels : list string)
  : option (list string) :=
  match calls with
  | [] => Some alarm_labels
  | (now, text) :: calls' =>
      match write_new_alarm now text alarm_labels with
      | None => None
      | Some labels1 => write_alarms calls' labels1
      end
  end.

(** The label text that a call writes. *)
Definition record_text (call : struct_time * string) : string :=
  (timestamp (fst call) +:+ " : " +:+ snd call)%string.

Module Gui.

(** [station_overviews] are the six overviews of [PlantOverviewWidget];
    [alarm_labels] holds the texts of the ten alarm labels. *)
Record t := mk {
  station_overviews : list ColorMixingStationOverviewWidget.t;
  alarm_labels : list string
}.

Definition init : t :=
  {| station_overviews :=
       map (fun i => ColorMixingStationOverviewWidget.init ("station" +:+ Py.str (Z.of_nat i))%string)
           (seq 1 6);
     alarm_labels := replicate 10 ""%string |}.

(** The [done] signals of the polling worker of one tank. *)
Inductive done :=
| LevelDone (level : Q)
| FlowDone (flow : Q)
| ColorDone (color : string)
| ValveDone (valve : Q).

(** The slot connected to each signal of the worker of tank [tank_name]
    of station number [i] (counted from 0).  [ms] is the clock of the
    event loop and [now] the wall clock. *)
Definition on_done (ms : Z) (now : struct_time) (i : nat) (tank_name : string) (d : done) (self : t)
  : option t :=
  match station_overviews self !! i with
  | None => None
  | Some ov =>
      match d with
      | LevelDone level =>
          match ColorMixingStationOverviewWidget.setLevel ov level tank_name with
          | None => None
          | Some (ov1, alarms) =>
              match write_alarms (map (fun a => (now, a)) alarms) (alarm_labels self) with
              | None => None
              | Some labels1 =>
                  Some {| station_overviews := <[i := ov1]> (station_overviews self);
                          alarm_labels := labels1 |}
              end
          end
      | _ =>
          match ColorMixingStationWidget.tanks (ColorMixingStationOverviewWidget.station ov)
                  !! tank_name with
          | None => None
          | Some w =>
              let w1 :=
                match d with
                | FlowDone flow => PaintTankWidget.setFlow w flow
                | ColorDone color => PaintTankWidget.setColor w color
                | ValveDone valve => PaintTankWidget.setValve ms w valve
                | LevelDone _ => w
                end in
              Some {| station_overviews :=
                        <[i := ColorMixingStationOverviewWidget.set_tank ov tank_name w1]>
                          (station_overviews self);
                      alarm_labels := alarm_labels self |}
          end
      end
  end.

(** The signals of one polling round, delivered in emission order. *)
Fixpoint deliver (ms : Z) (now : struct_time) (i : nat) (tank_name : string) (ds : list done) (self : t)
  : option t :=
  match ds with
  | [] => Some self
  | d :: ds' =>
      match on_done ms now i tank_name d self with
      | None => None
      | Some self1 => deliver ms now i tank_name ds' self1
      end
  end.

End Gui.

(** ** [TangoBackgroundWorker]: the polling loop of one tank *)

Module TangoBackgroundWorker.

Record t := mk {
  station_name : string;
  tank_name : string;
  interval : Q
}.

(** [__init__(self, station_name, tank_name, interval=0.5)] *)
Definition init (station_name tank_name : string) : t :=
  {| station_name := station_name; tank_name := tank_name; interval := 0.5 |}.

(** What the thread does, in order. *)
Inductive action :=
| Read (path : string)
| Emit (d : Gui.done)
| Print (text : string)
| Sleep (seconds : Q).

(** The result of [AttributeProxy.read()]: the [value] of the data read,
    or the exception raised. *)
Inductive read_result (A : Type) :=
| Value (a : A)
| Raises (e : string).
Arguments Value {A} a.
Arguments Raises {A} e.

(** A computation performs actions, then returns or raises. *)
Definition M (A : Type) : Type := list action * (string + A).

Definition ret {A} (a : A) : M A := ([], inr a).

Definition bind {A B} (m : M A) (k : A -> M B) : M B :=
  match m with
  | (acts, inl e) => (acts, inl e)
  | (acts, inr a) => let (acts', r) := k a in (acts ++ acts', r)
  end.

Notation "x <- m ;; k" := (bind m (fun x => k))
  (at level 100, m at level 99, right associativity).
Notation "m ;;; k" := (bind m (fun _ => k))
  (at level 100, right associativity).

Definition read {A} (path : string) (r : read_result A) : M A :=
  ([Read path], match r with Value a => inr a | Raises e => inl e end).

Definition emit (d : Gui.done) : M unit := ([Emit d], inr tt).
Definition print (text : string) : M unit := ([Print text], inr tt).
Definition sleep (seconds : Q) : M unit := ([Sleep seconds], inr tt).

(** [try: body  except Exception as e: handler(e)] *)
Definition try_except (body : M unit) (handler : string -> M unit) : M unit :=
  match body with
  | (acts, inl e) => let (acts', r) := handler e in (acts ++ acts', r)
  | (acts, inr tt) => (acts, inr tt)
  end.

(** What the device answers to the reads of one round, were each of them
    attempted. *)
Record answers := mkAnswers {
  color_answer : read_result string;
  level_answer : read_result Q;
  flow_answer : read_result Q;
  valve_answer : read_result Q
}.

Definition path (self : t) (attribute : string) : string :=
  attribute_path (station_name self) (tank_name self) attribute.

(** The body of the [while True] loop. *)
Definition round (self : t) (ans : answers) : M unit :=
  try_except
    (data_color <- read (path self TANGO_ATTRIBUTE_COLOR) (color_answer ans) ;;
     data_level <- read (path self TANGO_ATTRIBUTE_LEVEL) (level_answer ans) ;;
     data_flow <- read (path self TANGO_ATTRIBUTE_FLOW) (flow_answer ans) ;;
     data_valve <- read (path self TANGO_ATTRIBUTE_VALVE) (valve_answer ans) ;;
     emit (Gui.ColorDone data_color) ;;;
     emit (Gui.LevelDone data_level) ;;;
     emit (Gui.FlowDone data_flow) ;;;
     emit (Gui.ValveDone data_valve))
    (fun e => print ("Error reading from the device: " +:+ e)%string) ;;;
  sleep (interval self).

(** The loop over the rounds for which the device's answers are given. *)
Fixpoint rounds (self : t) (anss : list answers) : M unit :=
  match anss with
  | [] => ret tt
  | ans :: anss' => round self ans ;;; rounds self anss'
  end.

(** [run]: [proxies] says whether the four [AttributeProxy] objects
    could be created; the loop never ends, so the actions are those of
    the rounds whose answers are given. *)
Definition run (self : t) (proxies : bool) (anss : list answers) : list action :=
  Print ("Starting TangoBackgroundWorker for '" +:+ station_name self +:+ "'/'"
           +:+ tank_name self +:+ "' tank")%string ::
  if proxies then fst (rounds self anss)
  else [Print ("Error creating AttributeProxy for " +:+ tank_name self)%string].

Definition actions {A} (m : M A) : list action := fst m.

(** The paths read and the signals emitted among some actions. *)
Definition reads (acts : list action) : list string :=
  omap (fun a => match a with Read p => Some p | _ => None end) acts.

Definition emitted (acts : list action) : list Gui.done :=
  omap (fun a => match a with Emit d => Some d | _ => None end) acts.

Definition succeeded {A} (r : read_result A) : bool :=
  match r with Value _ => true | Raises _ => false end.

(** Every read of the round is answered with a value. *)
Definition all_succeed (ans : answers) : bool :=
  succeeded (color_answer ans) && succeeded (level_answer ans)
  && succeeded (flow_answer ans) && succeeded (valve_answer ans).

(** The number of reads that the body of the loop attempts: every read
    up to and including the first one that fails, all four if the first
    three succeed. *)
Definition attempted (ans : answers) : nat :=
  if succeeded (color_answer ans) then
    if succeeded (level_answer ans) then
      if succeeded (flow_answer ans) then 4 else 3
    else 2
  else 1.

(** The order in which the body of the loop reads the attributes. *)
Definition read_order (self : t) : list string :=
  [path self TANGO_ATTRIBUTE_COLOR; path self TANGO_ATTRIBUTE_LEVEL;
   path self TANGO_ATTRIBUTE_FLOW; path self TANGO_ATTRIBUTE_VALVE].

End TangoBackgroundWorker.

(** ** [ColorMixingStationOverviewWidget.get_label_color] *)

(** The style of a level label: ['none'], or the text
    ['rgba(255, g, 0, a)'], represented by its four components. *)
Inductive label_color :=
| color_none
| color_rgba (r g b : Z) (a : Q).

Definition get_label_color (tank_name : string) (level : Q) : label_color :=
  if String.eqb tank_name "mixer" then
    if level >=? 0.8
    then color_rgba 255 (Py.int (255 * (1 - 5 * (level - 0.8)))) 0 (0.4 + 3 * (level - 0.8))
    else color_none
  else
    if level <=? 0.2
    then color_rgba 255 (Py.int (255 * 5 * level)) 0 (1 - 3 * level)
    else color_none.

(** ** Addressing one tank of the [Gui] *)

(** The widget of tank [tank_name] of station number [i]. *)
Definition tank_at (gui : Gui.t) (i : nat) (tank_name : string) : option PaintTankWidget.t :=
  match Gui.station_overviews gui !! i with
  | None => None
  | Some ov =>
      ColorMixingStationWidget.tanks (ColorMixingStationOverviewWidget.station ov) !! tank_name
  end.

(** What the slot of a [done] signal does to the widget of its tank. *)
Definition apply_done (ms : Z) (d : Gui.done) (w : PaintTankWidget.t) : PaintTankWidget.t :=
  match d with
  | Gui.LevelDone level =>
      PaintTankWidget.set_tank w (TankWidget.set_fill_level (PaintTankWidget.tank w) level)
  | Gui.FlowDone flow => PaintTankWidget.setFlow w flow
  | Gui.ColorDone color => PaintTankWidget.setColor w color
  | Gui.ValveDone valve => PaintTankWidget.setValve ms w valve
  end.

(** The calls of [wrt_alarm] that the slot of a [done] signal makes. *)
Definition alarms_of_done (station_name tank_name : string) (d : Gui.done) (w : PaintTankWidget.t)
  : list string :=
  match d with
  | Gui.LevelDone level =>
      check_alarm_generation station_name (TankWidget.fill_level (PaintTankWidget.tank w))
        level tank_name
  | _ => []
  end.

(** The state of a [Gui] that its slots rely on: the six tanks of each
    of the six stations are there, and the panel has its ten labels. *)
Definition Gui_ok (gui : Gui.t) : Prop :=
  length (Gui.alarm_labels gui) = 10%nat
  /\ forall i tank_name,
       (i < 6)%nat -> In tank_name (map fst ColorMixingStationWidget.tank_specs) ->
       is_Some (tank_at gui i tank_name).

(** The signals of a round whose four reads succeed; none otherwise. *)
Definition snapshot (ans : TangoBackgroundWorker.answers) : list Gui.done :=
  match ans with
  | TangoBackgroundWorker.mkAnswers
      (TangoBackgroundWorker.Value c) (TangoBackgroundWorker.Value l)
      (TangoBackgroundWorker.Value f) (TangoBackgroundWorker.Value v) =>
      [Gui.ColorDone c; Gui.LevelDone l; Gui.FlowDone f; Gui.ValveDone v]
  | _ => []
  end.

(** The pauses among some actions of the polling loop. *)
Definition pauses (acts : list TangoBackgroundWorker.action) : list Q :=
  omap (fun a => match a with TangoBackgroundWorker.Sleep s => Some s | _ => None end) acts.

(** ** Counting in the event loop *)

(** The events that reach [changedValue]: a request of the user, or an
    echo (which may move the slider). *)
Definition arms (e : EventLoop.event) : bool :=
  match e with
  | EventLoop.ValueChanged _ | EventLoop.ValveDone _ => true
  | _ => false
  end.

(** The number of timers pending in a widget: one or none. *)
Definition pending (self : PaintTankWidget.t) : nat :=
  match PaintTankWidget.timer_slider self with Some _ => 1 | None => 0 end.

Definition in_range (e : EventLoop.event) : Prop :=
  match e with
  | EventLoop.ValueChanged v => (0 <= v <= 100)%Z
  | _ => True
  end.

(** ** [TangoWriteAttributeWorker.run] and [TangoRunCommandWorker.run] *)

Module Worker.

(** What a worker of the thread pool does, in order.  The texts printed
    are represented by what they report. *)
Inductive action :=
| PrintSet (path : string) (value : Q)
| PrintWriteFailed (path : string)
| PrintCommand (device command : string)
| PrintCommandFailed (device command : string)
| NewProxy (name : string)
| Write (path : string) (value : Q)
| Read (path : string)
| GetAttr (command : string)
| Call (command : string)
| Emit (value : Q).

(** The outcome of a remote operation: a value, or the exception raised. *)
Inductive outcome (A : Type) :=
| Returns (a : A)
| Raises (e : string).
Arguments Returns {A} a.
Arguments Raises {A} e.

Definition M (A : Type) : Type := list action * (string + A).

Definition bind {A B} (m : M A) (k : A -> M B) : M B :=
  match m with
  | (acts, inl e) => (acts, inl e)
  | (acts, inr a) => let (acts', r) := k a in (acts ++ acts', r)
  end.

Notation "x <- m ;; k" := (bind m (fun x => k))
  (at level 100, m at level 99, right associativity).
Notation "m ;;; k" := (bind m (fun _ => k))
  (at level 100, right associativity).

Definition act {A} (a : action) (o : outcome A) : M A :=
  ([a], match o with Returns v => inr v | Raises e => inl e end).

Definition try_except (body : M unit) (handler : string -> M unit) : M unit :=
  match body with
  | (acts, inl e) => let (acts', r) := handler e in (acts ++ acts', r)
  | (acts, inr tt) => (acts, inr tt)
  end.

(** [TangoWriteAttributeWorker.run]: the proxy is created outside the
    [try]; [proxy], [written] and [read_back] are the outcomes of
    [AttributeProxy(path)], [attr.write(value)] and [attr.read()]. *)
Definition write_run (self : TangoWriteAttributeWorker)
    (proxy written : outcome unit) (read_back : outcome Q) : M unit :=
  act (PrintSet (write_path self) (write_value self)) (Returns tt) ;;;
  act (NewProxy (write_path self)) proxy ;;;
  try_except
    (act (Write (write_path self) (write_value self)) written ;;;
     data <- act (Read (write_path self)) read_back ;;
     act (Emit data) (Returns tt))
    (fun e => act (PrintWriteFailed (write_path self)) (Returns tt)).

(** ["%s/%s/%s" % (TANGO_NAME_PREFIX, station_name, device)] *)
Definition device_path (station_name device : string) : string :=
  (TANGO_NAME_PREFIX +:+ "/" +:+ station_name +:+ "/" +:+ device)%string.

Record TangoRunCommandWorker := mkCommand { device : string; command : string }.

(** [TangoRunCommandWorker.run] without arguments: everything is inside
    the [try]; [proxy], [found] and [called] are the outcomes of
    [DeviceProxy(device)], [getattr(device, command)] and the call. *)
Definition command_run (self : TangoRunCommandWorker)
    (proxy found : outcome unit) (called : outcome Q) : M unit :=
  act (PrintCommand (device self) (command self)) (Returns tt) ;;;
  try_except
    (act (NewProxy (device self)) proxy ;;;
     act (GetAttr (command self)) found ;;;
     result <- act (Call (command self)) called ;;
     act (Emit result) (Returns tt))
    (fun e => act (PrintCommandFailed (device self) (command self)) (Returns tt)).

Definition emitted (acts : list action) : list Q :=
  omap (fun a => match a with Emit v => Some v | _ => None end) acts.

Definition is_ok {A} (o : outcome A) : bool :=
  match o with Returns _ => true | Raises _ => false end.

End Worker.

(** [PaintTankWidget.on_fill] and [on_flush]: the command worker started. *)
Definition on_fill (self : PaintTankWidget.t) : Worker.TangoRunCommandWorker :=
  Worker.mkCommand
    (Worker.device_path (PaintTankWidget.station_name self) (PaintTankWidget.tank_name self))
    "Fill".

Definition on_flush (self : PaintTankWidget.t) : Worker.TangoRunCommandWorker :=
  Worker.mkCommand
    (Worker.device_path (PaintTankWidget.station_name self) (PaintTankWidget.tank_name self))
    "Flush".

(** ** Device names: src/register-server.py and [PaintTank.init_device] *)

(** [s.split(sep)] for a separator of one character. *)
Fixpoint str_split (sep : Ascii.ascii) (s : string) : list string :=
  match s with
  | EmptyString => [EmptyString]
  | String c s' =>
      if Ascii.eqb c sep then EmptyString :: str_split sep s'
      else match str_split sep s' with
           | [] => [String c EmptyString]
           | part :: parts => String c part :: parts
           end
  end.

(** [l[-k]] for [k >= 1]; [None] is the [IndexError]. *)
Definition index_from_end {A} (l : list A) (k : nat) : option A :=
  if (k <=? length l)%nat then l !! (length l - k)%nat else None.

Definition slash : Ascii.ascii := Ascii.ascii_of_nat 47.

(** The two names [init_device] takes from [self.get_name()]:
    [split('/')[-2]] and [split('/')[-1]]. *)
Definition init_device_names (name : string) : option (string * string) :=
  match index_from_end (str_split slash name) 2 with
  | None => None
  | Some station_name =>
      match index_from_end (str_split slash name) 1 with
      | None => None
      | Some tank_name => Some (station_name, tank_name)
      end
  end.

(** The characters of a string. *)
Fixpoint chars (s : string) : list Ascii.ascii :=
  match s with
  | EmptyString => []
  | String c s' => c :: chars s'
  end.

(** The station names and device names of the two loops of
    register-server.py, and the device names it registers, in order. *)
Definition registered_stations : list string :=
  map (fun i => ("station" +:+ Py.str (Z.of_nat i))%string) (seq 1 6).

Definition registered_tanks : list string :=
  ["cyan"; "magenta"; "yellow"; "black"; "white"; "mixer"]%string.

Definition registered_devices : list string :=
  flat_map (fun station_name =>
              map (fun device_name => ("epfl/" +:+ station_name +:+ "/" +:+ device_name)%string)
                  registered_tanks)
           registered_stations.

(** The devices whose attributes the workers of a [Gui] address. *)
Definition gui_devices (gui : Gui.t) : list string :=
  flat_map (fun ov =>
              map (fun nw => Worker.device_path (ColorMixingStationOverviewWidget.station_name ov)
                               (fst nw))
                  ColorMixingStationWidget.tank_specs)
           (Gui.station_overviews gui).

(** ** Binary64 floats, where the value of a float operation matters *)

Module Fl.

(** The exact value of a finite float; 0 for the others. *)
Definition to_Q (x : float) : Q :=
  match Prim2SF x with
  | S754_finite s m e =>
      let a := if (0 <=? e)%Z then inject_Z (Zpos m * 2 ^ e)
               else Zpos m # Z.to_pos (2 ^ (- e)) in
      if s then - a else a
  | _ => 0
  end.

(** [int(x)]: truncation towards zero; [None] is the [ValueError] for a
    NaN and the [OverflowError] for an infinity. *)
Definition int (x : float) : option Z :=
  match Prim2SF x with
  | S754_zero _ => Some 0%Z
  | S754_finite s m e =>
      let a := if (0 <=? e)%Z then (Zpos m * 2 ^ e)%Z else (Zpos m / 2 ^ (- e))%Z in
      Some (if s then (- a)%Z else a)
  | S754_infinity _ | S754_nan => None
  end.

(** An odd number and the power of two it is multiplied with. *)
Fixpoint odd_part (p : positive) : positive * Z :=
  match p with
  | xO p' => let (q, t) := odd_part p' in (q, (t + 1)%Z)
  | _ => (p, 0%Z)
  end.

(** The float of an integer that is the value of a float, as is every
    result of [int]. *)
Definition of_Z (k : Z) : float :=
  match k with
  | Z0 => zero
  | Zpos p => let (q, t) := odd_part p in SF2Prim (S754_finite false q t)
  | Zneg p => let (q, t) := odd_part p in SF2Prim (S754_finite true q t)
  end.

(** [f'{x:.0%}']: the float product [x*100], rounded to the nearest
    integer (ties to even) on its exact value, then a percent sign. *)
Definition format_percent0 (x : float) : string :=
  match Prim2SF (x * 100)%float with
  | S754_nan => "nan%"
  | S754_infinity s => if s then "-inf%" else "inf%"
  | S754_zero s => if s then "-0%" else "0%"
  | S754_finite s m e =>
      ((if s then "-" else "")
         +:+ Py.str (Py.round_half_even (Qabs (to_Q (x * 100)%float))) +:+ "%")%string
  end.

(** The alarm text with [int(level*10)/10] computed as the program does:
    a float product, its truncation, and the division of that integer by
    10; [None] where [int] raises. *)
Definition alarm_text (station_name tank_name : string) (level : float) (suffix : string)
  : option string :=
  match int (level * 10)%float with
  | None => None
  | Some k =>
      Some (station_name +:+ "/" +:+ tank_name +:+ " : "
              +:+ format_percent0 (of_Z k / 10)%float
              +:+ " " +:+ suffix)%string
  end.

(** [check_alarm_generation] on floats: [None] where it raises, else the
    texts passed to [self.wrt_alarm]. *)
Definition check_alarm_generation
    (station_name : string) (previous_level level : float) (tank_name : string)
  : option (list string) :=
  if String.eqb tank_name "mixer" then
    if ((previous_level <? 0.8) && (0.8 <=? level)
        || (previous_level <? 0.9) && (0.9 <=? level))%float
    then match alarm_text station_name tank_name level "full" with
         | Some text => Some [text]
         | None => None
         end
    else Some []
  else
    if ((0.2 <? previous_level) && (level <=? 0.2)
        || (0.1 <? previous_level) && (level <=? 0.1))%float
    then match alarm_text station_name tank_name level "remaining" with
         | Some text => Some [text]
         | None => None
         end
    else Some [].

(** [PaintTankWidget.setValve] with [int(valve*100)] on the float
    product.  [None] where the slot raises before it changes anything:
    the errors of [int], and the [OverflowError] of [QSlider.setValue] for
    an integer that is no C [int]. *)
Definition setValve (now : Z) (self : PaintTankWidget.t) (valve : float)
  : option PaintTankWidget.t :=
  match PaintTankWidget.timer_slider self with
  | None =>
      if negb (PaintTankWidget.slider_down self) then
        match int (valve * 100)%float with
        | None => None
        | Some k =>
            if ((- 2 ^ 31 <=? k) && (k <? 2 ^ 31))%Z then
              let self1 := PaintTankWidget.slider_setValue now self k in
              Some (PaintTankWidget.set_tank self1
                      (TankWidget.setValve (PaintTankWidget.tank self1)
                         (to_Q (valve * 100)%float)))
            else None
        end
      else Some self
  | Some _ => Some self
  end.

End Fl.

(** ** The event loop with the timer as Qt runs it *)

Module Loop.

(** What happens to a widget, one thing at a time: the signals that
    reach its slots, and the [timerEvent] of its timer. *)
Inductive occurrence :=
| ValueChanged (v : Z)
| SliderPressed
| SliderReleased
| ValveDone (valve : float)
| FlowDone (flow : Q)
| ColorDone (color : string)
| TimerEvent.

(** The slot or event handler run at the time [now]; [None] when it
    raises. *)
Definition react (now : Z) (o : occurrence) (self : PaintTankWidget.t)
  : option (PaintTankWidget.t * list TangoWriteAttributeWorker) :=
  match o with
  | ValueChanged v =>
      Some (PaintTankWidget.changedValue now (PaintTankWidget.set_slider_value self v), [])
  | SliderPressed => Some (PaintTankWidget.set_slider_down self true, [])
  | SliderReleased => Some (PaintTankWidget.set_slider_down self false, [])
  | ValveDone valve =>
      match Fl.setValve now self valve with
      | Some self1 => Some (self1, [])
      | None => None
      end
  | FlowDone flow => Some (PaintTankWidget.setFlow self flow, [])
  | ColorDone color => Some (PaintTankWidget.setColor self color, [])
  | TimerEvent => Some (PaintTankWidget.timerEvent self)
  end.

(** A time-stamped run; the writes started are collected in order, and
    the run ends where a slot raises. *)
Fixpoint exec (self : PaintTankWidget.t) (occs : list (Z * occurrence))
  : option (PaintTankWidget.t * list TangoWriteAttributeWorker) :=
  match occs with
  | [] => Some (self, [])
  | (now, o) :: occs' =>
      match react now o self with
      | None => None
      | Some (s1, ws1) =>
          match exec s1 occs' with
          | None => None
          | Some (s2, ws2) => Some (s2, ws1 ++ ws2)
          end
      end
  end.

(** The time stamps do not go back. *)
Fixpoint ordered (prev : Z) (occs : list (Z * occurrence)) : Prop :=
  match occs with
  | [] => True
  | (now, _) :: occs' => (prev <= now)%Z /\ ordered now occs'
  end.

(** [startTimer(200)] starts a coarse timer, which Qt keeps within 5% of
    its interval: it may fire 10 ms before the 200 ms are over. *)
Definition coarse_slack : Z := 10.

(** Every [timerEvent] of the run is the event of a pending timer, no
    earlier than that timer may fire. *)
Fixpoint timely (self : PaintTankWidget.t) (occs : list (Z * occurrence)) : Prop :=
  match occs with
  | [] => True
  | (now, o) :: occs' =>
      match o with
      | TimerEvent =>
          match PaintTankWidget.timer_slider self with
          | Some deadline => (deadline - coarse_slack <= now)%Z
          | None => False
          end
      | _ => True
      end
      /\ match react now o self with
         | Some (s1, _) => timely s1 occs'
         | None => True
         end
  end.

(** Every request of the run comes less than [limit] after the request
    before it, [last] being the time of the last request so far. *)
Fixpoint burst_within (limit : Z) (last : option Z) (occs : list (Z * occurrence)) : Prop :=
  match occs with
  | [] => True
  | (now, ValueChanged _) :: occs' =>
      match last with Some l => (now < l + limit)%Z | None => True end
      /\ burst_within limit (Some now) occs'
  | _ :: occs' => burst_within limit last occs'
  end.

(** The widget [s] of the run of [self] has the slider at [v] and its
    timer armed by a request at the time [last]. *)
Definition armed (self s : PaintTankWidget.t) (last v : Z) : Prop :=
  PaintTankWidget.timer_slider s = Some (last + 200)%Z
  /\ PaintTankWidget.slider_value s = v
  /\ PaintTankWidget.station_name s = PaintTankWidget.station_name self
  /\ PaintTankWidget.tank_name s = PaintTankWidget.tank_name self.

Definition is_request (o : occurrence) : bool :=
  match o with ValueChanged _ => true | _ => false end.

(** Neither a request nor a timer event. *)
Definition quiet (o : occurrence) : bool :=
  match o with ValueChanged _ | TimerEvent => false | _ => true end.

Definition starts_with_request (occs : list (Z * occurrence)) : Prop :=
  match occs with
  | (_, ValueChanged _) :: _ => True
  | _ => False
  end.

End Loop.

(** * Properties *)

(** ** Facts about the primitives *)

Lemma ltb_lt (x y : Q) : (x <? y) = true <-> x < y.
Proof.
  unfold Py.ltb. rewrite Qlt_alt. destruct (Qcompare x y); split; congruence.
Qed.

Lemma leb_le (x y : Q) : (x <=? y) = true <-> x <= y.
Proof.
  unfold Py.leb. rewrite Qle_alt. destruct (Qcompare x y); split; congruence.
Qed.

Lemma crossesb_crosses (r : role) (last t level : Q) :
  crossesb r last t level = true <-> crosses r last t level.
Proof.
  destruct r; simpl; rewrite andb_true_iff, ltb_lt, leb_le; reflexivity.
Qed.





(** The source's two conditions are the crossing conditions of the role's
    two thresholds, and at most one text is produced. *)
Lemma check_alarm_generation_crossed (station_name : string) (previous_level level : Q) (tank_name : string) :
  check_alarm_generation station_name previous_level level tank_name =
  if existsb (fun t => crossesb (role_of tank_name) previous_level t level)
             (thresholds (role_of tank_name))
  then [alarm_text station_name tank_name level (message_form (role_of tank_name))]
  else [].
Proof.
  unfold check_alarm_generation, role_of.
  destruct (String.eqb tank_name "mixer"); simpl; unfold Py.gtb, Py.geb;
    rewrite orb_false_r; reflexivity.
Qed.

Lemma existsb_crossed (r : role) (last level : Q) :
  existsb (fun t => crossesb r last t level) (thresholds r) = true <->
  exists t, In t (thresholds r) /\ crosses r last t level.
Proof.
  rewrite existsb_exists. split; intros (t & Hin & Hc); exists t; split; auto;
    apply crossesb_crosses; assumption.
Qed.

(** An alarm is produced exactly when one of the role's thresholds is
    crossed between the two levels. *)
Lemma check_alarm_generation_iff
    (station_name : string) (previous_level level : Q) (tank_name : string) :
  let r := role_of tank_name in
  (check_alarm_generation station_name previous_level level tank_name <> []
     <-> exists t, In t (thresholds r) /\ crosses r previous_level t level)
  /\ ((forall t, In t (thresholds r) -> ~ crosses r previous_level t level)
     <-> check_alarm_generation station_name previous_level level tank_name = []).
Proof.
  intros r. rewrite check_alarm_generation_crossed. fold r.
  pose proof (existsb_crossed r previous_level level) as Hex.
  destruct (existsb _ _) eqn:E.
  - destruct Hex as [Hex _]. specialize (Hex eq_refl). split; split.
    + intros _. exact Hex.
    + intros _. discriminate.
    + intros Hno. destruct Hex as (t & Hin & Hc). destruct (Hno t Hin Hc).
    + discriminate.
  - destruct Hex as [_ Hex]. split; split.
    + intros Hne. destruct Hne. reflexivity.
    + intros H. apply Hex in H. discriminate.
    + reflexivity.
    + intros _ t Hin Hc. assert (false = true) by (apply Hex; eauto). discriminate.
Qed.

Lemma check_alarm_generation_length
    (station_name : string) (previous_level level : Q) (tank_name : string) :
  (length (check_alarm_generation station_name previous_level level tank_name) <= 1)%nat.
Proof.
  rewrite check_alarm_generation_crossed. destruct (existsb _ _); simpl; lia.
Qed.

(** C2, as stated, fails: the mixer level moving from 0.75 to 0.95
    crosses both 0.8 and 0.9, and the evaluation produces one record, not
    two. *)
Lemma double_crossing_single_record :
  crosses Ascending 0.75 0.8 0.95 /\ crosses Ascending 0.75 0.9 0.95 /\
  spec_fired Ascending 0.75 0.95 = [0.8; 0.9] /\
  check_alarm_generation "station1" 0.75 0.95 "mixer" = ["station1/mixer : 90% full"%string] /\
  length (check_alarm_generation "station1" 0.75 0.95 "mixer") <> 2%nat.
Proof.
  repeat split; try reflexivity; try discriminate.
Qed.

(** C2, amended. A sample whose jump crosses both thresholds of the
    tank's role produces exactly one alarm record, which reports the new
    level in the role's message form. *)
Theorem double_crossing_one_alarm
    (station_name : string) (previous_level level : Q) (tank_name : string) :
  Forall (fun t => crosses (role_of tank_name) previous_level t level)
         (thresholds (role_of tank_name)) ->
  check_alarm_generation station_name previous_level level tank_name =
  [alarm_text station_name tank_name level (message_form (role_of tank_name))].
Proof.
  intros Hall. rewrite check_alarm_generation_crossed.
  assert (Hex : existsb (fun t => crossesb (role_of tank_name) previous_level t level)
                        (thresholds (role_of tank_name)) = true).
  { apply existsb_crossed. inversion Hall as [|t ts Ht Hts Heq].
    - destruct (role_of tank_name); discriminate.
    - exists t. split; [left; reflexivity | exact Ht]. }
  rewrite Hex. reflexivity.
Qed.

Lemma double_crossing_one_alarm_witness :
  check_alarm_generation "station2" 0.75 0.95 "mixer" =
  [alarm_text "station2" "mixer" 0.95 "full"].
Proof.
  apply (double_crossing_one_alarm "station2" 0.75 0.95 "mixer").
  simpl. repeat constructor; discriminate.
Defined.



(** ** The first sample after construction *)

(** Every tank of a freshly built station holds the level 0. *)
Lemma init_tanks_lookup (station_name tank_name : string) :
  In tank_name (map fst ColorMixingStationWidget.tank_specs) ->
  exists w,
    ColorMixingStationWidget.tanks (ColorMixingStationWidget.init station_name) !! tank_name = Some w
    /\ TankWidget.fill_level (PaintTankWidget.tank w) = 0
    /\ PaintTankWidget.timer_slider w = None.
Proof.
  simpl. intros H.
  repeat (destruct H as [<-|H]; [eexists; split; [reflexivity | split; reflexivity] |]).
  destruct H.
Qed.

Lemma mixer_first_sample_condition (level : Q) :
  existsb (fun t => crossesb Ascending 0 t level) (thresholds Ascending) = true <-> 0.8 <= level.
Proof.
  simpl. rewrite orb_false_r, orb_true_iff, !leb_le. split.
  - intros [H|H]; [exact H|].
    apply Qle_trans with (y := 0.9); [discriminate | exact H].
  - intros H. left. exact H.
Qed.

Lemma supply_first_sample_condition (level : Q) :
  existsb (fun t => crossesb Descending 0 t level) (thresholds Descending) = false.
Proof. reflexivity. Qed.

(** C3, as stated, fails: the first sample of a mixer, 0.85, raises an
    alarm, because the level stored at construction is 0. *)
Lemma first_sample_mixer_alarm :
  option_map snd
    (ColorMixingStationOverviewWidget.setLevel
       (ColorMixingStationOverviewWidget.init "station1") 0.85 "mixer")
  = Some ["station1/mixer : 80% full"%string].
Proof. reflexivity. Qed.

(** C3, amended. The level stored for every tank at construction is 0,
    and the first sample is evaluated against it like any other: a supply
    tank raises no alarm on its first sample, and the mixer raises one
    exactly when its first sample is at or above 0.8. *)
Theorem first_sample_against_zero (station_name tank_name : string) (level : Q) :
  In tank_name (map fst ColorMixingStationWidget.tank_specs) ->
  exists ov alarms,
    ColorMixingStationOverviewWidget.setLevel
      (ColorMixingStationOverviewWidget.init station_name) level tank_name = Some (ov, alarms)
    /\ alarms = check_alarm_generation station_name 0 level tank_name
    /\ (alarms <> [] <-> tank_name = "mixer"%string /\ 0.8 <= level).
Proof.
  intros Hin. destruct (init_tanks_lookup station_name tank_name Hin) as (w & Hw & Hlevel & _).
  unfold ColorMixingStationOverviewWidget.setLevel.
  change (ColorMixingStationOverviewWidget.station
            (ColorMixingStationOverviewWidget.init station_name))
    with (ColorMixingStationWidget.init station_name).
  rewrite Hw, Hlevel. eexists; eexists; split; [reflexivity|]. split; [reflexivity|].
  change (ColorMixingStationOverviewWidget.station_name
            (ColorMixingStationOverviewWidget.init station_name)) with station_name.
  rewrite check_alarm_generation_crossed. unfold role_of.
  destruct (String.eqb_spec tank_name "mixer") as [E|E].
  - pose proof (mixer_first_sample_condition level) as Hm.
    destruct (existsb _ _); split.
    + intros _. split; [exact E | apply Hm; reflexivity].
    + intros _. discriminate.
    + intros H. destruct H. reflexivity.
    + intros [_ H]. apply Hm in H. discriminate.
  - rewrite supply_first_sample_condition. split.
    + intros H. destruct H. reflexivity.
    + intros [H _]. destruct (E H).
Qed.

Lemma first_sample_against_zero_witness :
  exists ov alarms,
    ColorMixingStationOverviewWidget.setLevel
      (ColorMixingStationOverviewWidget.init "station4") 0.15 "cyan" = Some (ov, alarms)
    /\ alarms = check_alarm_generation "station4" 0 0.15 "cyan"
    /\ (alarms <> [] <-> "cyan"%string = "mixer"%string /\ 0.8 <= 0.15).
Proof.
  apply (first_sample_against_zero "station4" "cyan" 0.15). simpl. auto.
Defined.

(** The level sequence of the specification's example, fed to a fresh
    mixer: alarms at 0.82 and at 0.91 only. *)
Example feed_mixer_sequence :
  option_map snd
    (ColorMixingStationOverviewWidget.feed
       (ColorMixingStationOverviewWidget.init "station1") "mixer"
       [0.70; 0.75; 0.82; 0.85; 0.91; 0.88])
  = Some [[]; []; ["station1/mixer : 80% full"%string]; [];
          ["station1/mixer : 90% full"%string]; []].
Proof. reflexivity. Qed.

(** [setLevel] evaluates the sample against the stored level, then
    stores the sample. *)
Lemma setLevel_lookup
    (self : ColorMixingStationOverviewWidget.t) (tank_name : string)
    (w : PaintTankWidget.t) (level : Q) :
  ColorMixingStationWidget.tanks (ColorMixingStationOverviewWidget.station self) !! tank_name
    = Some w ->
  exists self',
    ColorMixingStationOverviewWidget.setLevel self level tank_name =
      Some (self',
            check_alarm_generation (ColorMixingStationOverviewWidget.station_name self)
              (TankWidget.fill_level (PaintTankWidget.tank w)) level tank_name)
    /\ exists w',
         ColorMixingStationWidget.tanks (ColorMixingStationOverviewWidget.station self')
           !! tank_name = Some w'
         /\ TankWidget.fill_level (PaintTankWidget.tank w') = level.
Proof.
  intros Hw. unfold ColorMixingStationOverviewWidget.setLevel. rewrite Hw.
  eexists. split; [reflexivity|]. eexists. split.
  - cbn. apply lookup_insert_eq.
  - reflexivity.
Qed.

(** C1. Every sample [level] of a tank is evaluated against the level
    stored from the previous sample, and an alarm is produced exactly
    when the crossing condition of the tank's role holds for one of the
    role's thresholds: for the mixer (0.8 and 0.9) when
    [previous < t <= level], for a supply tank (0.2 and 0.1) when
    [previous > t >= level]; otherwise no alarm is produced.  The sample
    then becomes the stored level. *)
Theorem alarm_iff_threshold_crossed
    (self : ColorMixingStationOverviewWidget.t) (tank_name : string)
    (w : PaintTankWidget.t) (level : Q) :
  ColorMixingStationWidget.tanks (ColorMixingStationOverviewWidget.station self) !! tank_name
    = Some w ->
  let previous := TankWidget.fill_level (PaintTankWidget.tank w) in
  let r := role_of tank_name in
  exists self' alarms,
    ColorMixingStationOverviewWidget.setLevel self level tank_name = Some (self', alarms)
    /\ (alarms <> [] <-> exists t, In t (thresholds r) /\ crosses r previous t level)
    /\ ((forall t, In t (thresholds r) -> ~ crosses r previous t level) <-> alarms = [])
    /\ (length alarms <= 1)%nat
    /\ exists w',
         ColorMixingStationWidget.tanks (ColorMixingStationOverviewWidget.station self')
           !! tank_name = Some w'
         /\ TankWidget.fill_level (PaintTankWidget.tank w') = level.
Proof.
  intros Hw previous r.
  destruct (setLevel_lookup self tank_name w level Hw) as (self' & Hset & Hstored).
  exists self'. eexists. split; [exact Hset|].
  destruct (check_alarm_generation_iff (ColorMixingStationOverviewWidget.station_name self)
              previous level tank_name) as [Hiff Hnone].
  split; [exact Hiff|]. split; [exact Hnone|]. split; [|exact Hstored].
  apply check_alarm_generation_length.
Qed.

Lemma alarm_iff_threshold_crossed_witness :
  exists self' alarms,
    ColorMixingStationOverviewWidget.setLevel
      (ColorMixingStationOverviewWidget.init "station1") 0.85 "mixer" = Some (self', alarms)
    /\ (alarms <> [] <-> exists t, In t [0.8; 0.9] /\ 0 < t /\ t <= 0.85).
Proof.
  destruct (alarm_iff_threshold_crossed
              (ColorMixingStationOverviewWidget.init "station1") "mixer"
              (fst (PaintTankWidget.init "station1" "mixer" 860)) 0.85 eq_refl)
    as (self' & alarms & Hset & Hiff & _).
  exists self', alarms. split; [exact Hset | exact Hiff].
Defined.

(** ** The alarm panel *)

Lemma reversed_range_1_S (m : nat) :
  reverse (seq 1 (S m)) = S m :: reverse (seq 1 m).
Proof. rewrite seq_S, reverse_app. reflexivity. Qed.

(** The loop of [write_new_alarm] after its turns for the indices
    [m], ..., [1]: the texts at 0..[m-1] have moved one place down. *)
Lemma shift_labels_prefix (m : nat) : forall (a : string) (l : list string),
  (m < length (a :: l))%nat ->
  foldl shift_label (a :: l) (reverse (seq 1 m)) =
  a :: take m (a :: l) ++ drop (S m) (a :: l).
Proof.
  induction m as [|m IH]; intros a l Hm.
  - simpl. rewrite drop_0. reflexivity.
  - rewrite reversed_range_1_S. simpl foldl.
    assert (Hlt : (m < length (a :: l))%nat) by lia.
    destruct (lookup_lt_is_Some_2 (a :: l) m Hlt) as [x Hx].
    unfold shift_label at 2. replace (S m - 1)%nat with m by lia. rewrite Hx.
    change (<[S m := x]> (a :: l)) with (a :: <[m := x]> l).
    rewrite IH by (simpl in *; rewrite length_insert; lia).
    f_equal.
    change (a :: <[m := x]> l) with (<[S m := x]> (a :: l)).
    rewrite take_insert_ge by lia.
    rewrite (take_S_r (a :: l) m x Hx).
    rewrite <- app_assoc. f_equal.
    rewrite (insert_take_drop (a :: l) (S m) x) by lia.
    rewrite drop_app_length' by (rewrite length_take; lia).
    reflexivity.
Qed.

(** One call: the new text at index 0, the others one place down, the
    last one dropped. *)
Lemma write_new_alarm_cons (now : struct_time) (alarm_text : string) (labels : list string) :
  labels <> [] ->
  write_new_alarm now alarm_text labels =
  Some (record_text (now, alarm_text) :: take (length labels - 1) labels).
Proof.
  destruct labels as [|a l]; [congruence|]. intros _.
  unfold write_new_alarm, reversed_range_1.
  rewrite shift_labels_prefix by (simpl; lia).
  replace (S (length (a :: l) - 1)) with (length (a :: l)) by (simpl; lia).
  rewrite drop_all, app_nil_r. reflexivity.
Qed.

Lemma take_app_cons_take (n : nat) (A L : list string) (x : string) :
  take n (A ++ x :: take (n - 1) L) = take n (A ++ x :: L).
Proof.
  rewrite !take_app. f_equal.
  destruct (n - length A)%nat as [|j] eqn:E; [reflexivity|].
  simpl. f_equal. rewrite take_take. f_equal. lia.
Qed.

(** Any number of calls on a panel of [n] labels. *)
Lemma write_alarms_take (calls : list (struct_time * string)) : forall labels : list string,
  labels <> [] ->
  write_alarms calls labels =
  Some (take (length labels) (reverse (map record_text calls) ++ labels)).
Proof.
  induction calls as [|[now text] calls IH]; intros labels Hne.
  - simpl. rewrite take_ge by lia. reflexivity.
  - simpl write_alarms. rewrite write_new_alarm_cons by exact Hne.
    assert (Hlen : length (record_text (now, text) :: take (length labels - 1) labels)
                   = length labels).
    { destruct labels; [congruence|]. cbn [length]. rewrite length_take. cbn [length]. lia. }
    rewrite IH by discriminate. rewrite Hlen.
    rewrite take_app_cons_take. simpl map. rewrite reverse_cons, <- app_assoc. reflexivity.
Qed.

(** C4. The alarm panel holds ten labels at all times, hence at most ten
    records.  After any sequence of calls of [write_new_alarm] on the
    panel of a new [Gui] the labels show the records of the most recent
    calls, newest at index 0, at most ten of them, followed by the labels
    that are still empty; twelve calls leave exactly the ten most recent
    records: whenever the last ten calls are [recent], the labels are
    their records in reverse order.  One more call puts its record at
    index 0, moves the others one place down and drops the last one. *)
Theorem alarm_panel_ten_most_recent
    (calls : list (struct_time * string)) (call : struct_time * string) :
  let labels :=
    take 10 (reverse (map record_text calls)) ++ replicate (10 - length calls) ""%string in
  write_alarms calls (Gui.alarm_labels Gui.init) = Some labels
  /\ length labels = 10%nat
  /\ length (take 10 (reverse (map record_text calls))) = Nat.min 10 (length calls)
  /\ write_new_alarm (fst call) (snd call) labels = Some (record_text call :: take 9 labels)
  /\ (forall older recent, calls = older ++ recent -> length recent = 10%nat ->
        labels = reverse (map record_text recent)).
Proof.
  intros labels.
  assert (Hlen : length labels = 10%nat).
  { unfold labels. rewrite length_app, length_take, length_reverse, length_map, length_replicate. lia. }
  repeat split.
  - rewrite write_alarms_take by discriminate. f_equal. unfold labels.
    change (length (Gui.alarm_labels Gui.init)) with 10%nat.
    change (Gui.alarm_labels Gui.init) with (replicate 10 ""%string).
    rewrite take_app, length_reverse, length_map, take_replicate. f_equal. f_equal. lia.
  - exact Hlen.
  - rewrite length_take, length_reverse, length_map. reflexivity.
  - rewrite write_new_alarm_cons by (intros E; rewrite E in Hlen; discriminate).
    rewrite Hlen. destruct call. reflexivity.
  - intros older recent -> Hrecent. unfold labels.
    rewrite map_app, reverse_app, length_app, Hrecent.
    replace (10 - (length older + 10))%nat with 0%nat by lia.
    rewrite app_nil_r. apply take_app_length'.
    rewrite length_reverse, length_map. symmetry. exact Hrecent.
Qed.

Lemma alarm_panel_ten_most_recent_witness :
  write_alarms
    (map (fun s => (mkTime 2024 3 9 14 5 s, ("alarm " +:+ Py.str s)%string))
         [1; 2; 3; 4; 5; 6; 7; 8; 9; 10; 11; 12]%Z)
    (Gui.alarm_labels Gui.init)
  = Some (reverse
            (map (fun s => record_text (mkTime 2024 3 9 14 5 s, ("alarm " +:+ Py.str s)%string))
                 [3; 4; 5; 6; 7; 8; 9; 10; 11; 12]%Z)).
Proof.
  destruct (alarm_panel_ten_most_recent
              (map (fun s => (mkTime 2024 3 9 14 5 s, ("alarm " +:+ Py.str s)%string))
                   [1; 2; 3; 4; 5; 6; 7; 8; 9; 10; 11; 12]%Z)
              (mkTime 2024 3 9 14 6 0, "next"%string))
    as (Hrun & _ & _ & _ & Hrecent).
  rewrite Hrun. apply (f_equal Some).
  apply (Hrecent
           (map (fun s => (mkTime 2024 3 9 14 5 s, ("alarm " +:+ Py.str s)%string)) [1; 2]%Z)
           (map (fun s => (mkTime 2024 3 9 14 5 s, ("alarm " +:+ Py.str s)%string))
                [3; 4; 5; 6; 7; 8; 9; 10; 11; 12]%Z));
    reflexivity.
Defined.

Example twelve_alarms :
  write_alarms
    (map (fun s => (mkTime 2024 3 9 14 5 s, ("alarm " +:+ Py.str s)%string))
         [1; 2; 3; 4; 5; 6; 7; 8; 9; 10; 11; 12]%Z)
    (Gui.alarm_labels Gui.init)
  = Some ["09/03/2024 14:05:12 : alarm 12"; "09/03/2024 14:05:11 : alarm 11";
          "09/03/2024 14:05:10 : alarm 10"; "09/03/2024 14:05:09 : alarm 9";
          "09/03/2024 14:05:08 : alarm 8"; "09/03/2024 14:05:07 : alarm 7";
          "09/03/2024 14:05:06 : alarm 6"; "09/03/2024 14:05:05 : alarm 5";
          "09/03/2024 14:05:04 : alarm 4"; "09/03/2024 14:05:03 : alarm 3"]%string.
Proof. reflexivity. Qed.

(** ** The polling loop *)

Section Polling.

Import TangoBackgroundWorker.

Variable self : TangoBackgroundWorker.t.

(** A round whose four reads succeed. *)
Lemma round_all_values (c : string) (l f v : Q) :
  round self (mkAnswers (Value c) (Value l) (Value f) (Value v)) =
  (map Read (read_order self)
     ++ [Emit (Gui.ColorDone c); Emit (Gui.LevelDone l); Emit (Gui.FlowDone f);
         Emit (Gui.ValveDone v); Sleep (interval self)],
   inr tt).
Proof. reflexivity. Qed.

(** The exception of a round is caught: the round always returns. *)
Lemma round_returns (ans : answers) : snd (round self ans) = inr tt.
Proof.
  destruct ans as [[c|e1] [l|e2] [f|e3] [v|e4]]; reflexivity.
Qed.

(** A round with a failed read: some reads, the message, the pause. *)
Lemma round_failure (ans : answers) :
  all_succeed ans = false ->
  exists (n : nat) (e : string),
    (n < 4)%nat /\
    actions (round self ans) =
    map Read (take (S n) (read_order self))
      ++ [Print ("Error reading from the device: " +:+ e)%string; Sleep (interval self)].
Proof.
  destruct ans as [[c|e1] [l|e2] [f|e3] [v|e4]]; simpl; intros H; try discriminate H.
  all: try (exists 0%nat; eexists; split; [lia | reflexivity]).
  all: try (exists 1%nat; eexists; split; [lia | reflexivity]).
  all: try (exists 2%nat; eexists; split; [lia | reflexivity]).
  all: exists 3%nat; eexists; split; [lia | reflexivity].
Qed.

Lemma rounds_cons (ans : answers) (anss : list answers) :
  actions (rounds self (ans :: anss)) = actions (round self ans) ++ actions (rounds self anss).
Proof.
  simpl rounds. unfold bind, actions.
  pose proof (round_returns ans) as Hr.
  destruct (round self ans) as [acts [e|[]]]; simpl in Hr; [discriminate|].
  destruct (rounds self anss) as [acts' r]. reflexivity.
Qed.

Lemma emitted_app (a b : list action) : emitted (a ++ b) = emitted a ++ emitted b.
Proof. apply omap_app. Qed.

Lemma emitted_reads (ps : list string) : emitted (map Read ps) = [].
Proof. induction ps as [|p ps IH]; [reflexivity | exact IH]. Qed.

Lemma reads_app (a b : list action) : reads (a ++ b) = reads a ++ reads b.
Proof. apply omap_app. Qed.

Lemma reads_reads (ps : list string) : reads (map Read ps) = ps.
Proof. induction ps as [|p ps IH]; [reflexivity | simpl; f_equal; exact IH]. Qed.

(** C5. A polling round in which one of the four reads fails emits no
    signal, so that delivering what it emitted leaves the [Gui]
    unchanged; the round ends with the pause of [interval] seconds and the
    loop goes on with the next round; a next round whose four reads
    succeed emits all four values. *)
Theorem failed_round_publishes_nothing (ans : answers) :
  all_succeed ans = false ->
  emitted (actions (round self ans)) = []
  /\ (forall ms now i gui,
        Gui.deliver ms now i (tank_name self) (emitted (actions (round self ans))) gui = Some gui)
  /\ (exists acts, actions (round self ans) = acts ++ [Sleep (interval self)])
  /\ (forall anss,
        actions (rounds self (ans :: anss)) = actions (round self ans) ++ actions (rounds self anss))
  /\ (forall c l f v,
        emitted (actions (rounds self [ans; mkAnswers (Value c) (Value l) (Value f) (Value v)]))
        = [Gui.ColorDone c; Gui.LevelDone l; Gui.FlowDone f; Gui.ValveDone v]).
Proof.
  intros Hfail. destruct (round_failure ans Hfail) as (n & e & Hn & Hacts).
  assert (Hnone : emitted (actions (round self ans)) = []).
  { rewrite Hacts, emitted_app, emitted_reads. reflexivity. }
  split; [exact Hnone|]. split; [|split; [|split]].
  - intros ms now i gui. rewrite Hnone. reflexivity.
  - rewrite Hacts. eexists (_ ++ [_]). rewrite <- app_assoc. reflexivity.
  - intros anss. apply rounds_cons.
  - intros c l f v. rewrite rounds_cons, emitted_app, Hnone. reflexivity.
Qed.

(** C9, amended. Every polling round reads the attributes one after the
    other in the order color, level, flow, valve, up to and including the
    first read that fails: no read follows a failed one, and a round
    without failure reads all four. *)
Theorem round_read_order (ans : answers) :
  reads (actions (round self ans)) = take (attempted ans) (read_order self)
  /\ (all_succeed ans = true -> reads (actions (round self ans)) = read_order self).
Proof.
  destruct ans as [[c|e1] [l|e2] [f|e3] [v|e4]];
    (split; [reflexivity | intros E; first [discriminate E | reflexivity]]).
Qed.

End Polling.

Lemma failed_round_publishes_nothing_witness :
  TangoBackgroundWorker.emitted
    (TangoBackgroundWorker.actions
       (TangoBackgroundWorker.round (TangoBackgroundWorker.init "station1" "cyan")
          (TangoBackgroundWorker.mkAnswers
             (TangoBackgroundWorker.Value "#00ffff"%string) (TangoBackgroundWorker.Value 0.5)
             (TangoBackgroundWorker.Raises "timeout"%string) (TangoBackgroundWorker.Value 0.1))))
  = [].
Proof.
  apply (failed_round_publishes_nothing (TangoBackgroundWorker.init "station1" "cyan")).
  reflexivity.
Defined.

(** C9, as stated, fails: the round reads color first, not level. *)
Lemma round_reads_color_first :
  TangoBackgroundWorker.reads
    (TangoBackgroundWorker.actions
       (TangoBackgroundWorker.round (TangoBackgroundWorker.init "station1" "cyan")
          (TangoBackgroundWorker.mkAnswers
             (TangoBackgroundWorker.Value "#00ffff"%string) (TangoBackgroundWorker.Value 0.5)
             (TangoBackgroundWorker.Value 0) (TangoBackgroundWorker.Value 0.1))))
  <> ["epfl/station1/cyan/level"; "epfl/station1/cyan/flow";
      "epfl/station1/cyan/valve"; "epfl/station1/cyan/color"]%string.
Proof. discriminate. Qed.

Lemma round_read_order_witness :
  TangoBackgroundWorker.reads
    (TangoBackgroundWorker.actions
       (TangoBackgroundWorker.round (TangoBackgroundWorker.init "station1" "cyan")
          (TangoBackgroundWorker.mkAnswers
             (TangoBackgroundWorker.Value "#00ffff"%string) (TangoBackgroundWorker.Value 0.5)
             (TangoBackgroundWorker.Value 0) (TangoBackgroundWorker.Value 0.1))))
  = ["epfl/station1/cyan/color"; "epfl/station1/cyan/level";
     "epfl/station1/cyan/flow"; "epfl/station1/cyan/valve"]%string.
Proof.
  apply (proj2 (round_read_order (TangoBackgroundWorker.init "station1" "cyan") _)).
  reflexivity.
Defined.

(** ** The valve slider: echoes of the valve value *)









(** * Further properties of the code *)

(** ** Threshold alarms *)

Lemma crossesb_against_direction (r : role) (last t level : Q) :
  match r with Ascending => level <= last | Descending => last <= level end ->
  crossesb r last t level = false.
Proof.
  intros Hdir. destruct (crossesb r last t level) eqn:E; [|reflexivity].
  apply crossesb_crosses in E. exfalso. destruct r; destruct E as [H1 H2].
  - apply (Qlt_irrefl last). apply Qlt_le_trans with (y := t); [exact H1|].
    apply Qle_trans with (y := level); assumption.
  - apply (Qlt_irrefl t). apply Qlt_le_trans with (y := last); [exact H1|].
    apply Qle_trans with (y := level); assumption.
Qed.

(** X1. A mixer raises no alarm for a sample that is not above the
    previous one, and a supply tank none for a sample that is not below
    it; a repeated sample never raises an alarm. *)
Theorem no_alarm_against_direction
    (station_name : string) (previous_level level : Q) (tank_name : string) :
  match role_of tank_name with
  | Ascending => level <= previous_level
  | Descending => previous_level <= level
  end ->
  check_alarm_generation station_name previous_level level tank_name = [].
Proof.
  intros Hdir. rewrite check_alarm_generation_crossed.
  assert (E : existsb (fun t => crossesb (role_of tank_name) previous_level t level)
                (thresholds (role_of tank_name)) = false).
  { destruct (existsb _ _) eqn:E; [|reflexivity].
    apply existsb_exists in E. destruct E as (t & _ & Ht).
    rewrite crossesb_against_direction in Ht by exact Hdir. discriminate. }
  rewrite E. reflexivity.
Qed.

Lemma no_alarm_against_direction_witness :
  check_alarm_generation "station1" 0.95 0.85 "mixer" = []
  /\ check_alarm_generation "station1" 0.15 0.15 "cyan" = [].
Proof.
  split.
  - apply (no_alarm_against_direction "station1" 0.95 0.85 "mixer"). discriminate.
  - apply (no_alarm_against_direction "station1" 0.15 0.15 "cyan"). discriminate.
Defined.

(** An alarm tells where the level is: at or above 0.8 for the mixer, at
    or below 0.2 for a supply tank. *)
Lemma alarm_level_zone (station_name : string) (previous_level level : Q) (tank_name : string) :
  check_alarm_generation station_name previous_level level tank_name <> [] ->
  match role_of tank_name with
  | Ascending => 0.8 <= level
  | Descending => level <= 0.2
  end.
Proof.
  intros Hne. apply check_alarm_generation_iff in Hne. destruct Hne as (t & Hin & Hc).
  destruct (role_of tank_name); simpl in Hin, Hc.
  - destruct Hin as [<-|[<-|[]]]; destruct Hc as [_ H]; [exact H|].
    apply Qle_trans with (y := 0.9); [discriminate | exact H].
  - destruct Hin as [<-|[<-|[]]]; destruct Hc as [_ H]; [exact H|].
    apply Qle_trans with (y := 0.1); [exact H | discriminate].
Qed.




(** ** [setLevel] on a station *)

Lemma setLevel_eq
    (self : ColorMixingStationOverviewWidget.t) (tank_name : string)
    (w : PaintTankWidget.t) (level : Q) :
  ColorMixingStationWidget.tanks (ColorMixingStationOverviewWidget.station self) !! tank_name
    = Some w ->
  ColorMixingStationOverviewWidget.setLevel self level tank_name =
  Some (ColorMixingStationOverviewWidget.set_tank self tank_name
          (apply_done 0 (Gui.LevelDone level) w),
        check_alarm_generation (ColorMixingStationOverviewWidget.station_name self)
          (TankWidget.fill_level (PaintTankWidget.tank w)) level tank_name).
Proof.
  intros Hw. unfold ColorMixingStationOverviewWidget.setLevel. rewrite Hw. reflexivity.
Qed.

Lemma set_tank_lookup
    (self : ColorMixingStationOverviewWidget.t) (tank_name other : string) (w : PaintTankWidget.t) :
  ColorMixingStationWidget.tanks
    (ColorMixingStationOverviewWidget.station
       (ColorMixingStationOverviewWidget.set_tank self tank_name w)) !! other
  = if decide (tank_name = other) then Some w
    else ColorMixingStationWidget.tanks (ColorMixingStationOverviewWidget.station self) !! other.
Proof. cbn. apply lookup_insert. Qed.

Lemma last_cons_any {A} (l : list A) : forall x d : A, List.last (x :: l) d = List.last l x.
Proof.
  induction l as [|y l IH]; intros x d; [reflexivity|].
  change (List.last (x :: y :: l) d) with (List.last (y :: l) d).
  rewrite !IH. reflexivity.
Qed.

(** X3. The samples of one tank are compared pairwise: fed a sequence
    of levels, a station raises for each sample the alarms of that sample
    against the sample just before it (against the stored level for the
    first), and ends up storing the last sample. *)
Theorem feed_compares_consecutive_samples (levels : list Q) :
  forall (self : ColorMixingStationOverviewWidget.t) (tank_name : string) (w : PaintTankWidget.t),
  ColorMixingStationWidget.tanks (ColorMixingStationOverviewWidget.station self) !! tank_name
    = Some w ->
  exists self' w',
    ColorMixingStationOverviewWidget.feed self tank_name levels =
      Some (self',
            zip_with (fun previous level =>
                        check_alarm_generation (ColorMixingStationOverviewWidget.station_name self)
                          previous level tank_name)
                     (TankWidget.fill_level (PaintTankWidget.tank w) :: levels) levels)
    /\ ColorMixingStationWidget.tanks (ColorMixingStationOverviewWidget.station self') !! tank_name
       = Some w'
    /\ TankWidget.fill_level (PaintTankWidget.tank w')
       = List.last levels (TankWidget.fill_level (PaintTankWidget.tank w)).
Proof.
  induction levels as [|level levels IH]; intros self tank_name w Hw.
  - exists self, w. repeat split. exact Hw.
  - cbn [ColorMixingStationOverviewWidget.feed]. rewrite (setLevel_eq self tank_name w level Hw).
    set (self1 := ColorMixingStationOverviewWidget.set_tank self tank_name
                    (apply_done 0 (Gui.LevelDone level) w)).
    assert (Hw1 : ColorMixingStationWidget.tanks (ColorMixingStationOverviewWidget.station self1)
                    !! tank_name = Some (apply_done 0 (Gui.LevelDone level) w)).
    { unfold self1. rewrite set_tank_lookup. destruct (decide (tank_name = tank_name)); congruence. }
    destruct (IH self1 tank_name _ Hw1) as (self' & w' & Hfeed & Hlook & Hlast).
    rewrite Hfeed. exists self', w'. split; [reflexivity|]. split; [exact Hlook|].
    rewrite Hlast. rewrite last_cons_any. reflexivity.
Qed.

Lemma feed_compares_consecutive_samples_witness :
  exists self' w',
    ColorMixingStationOverviewWidget.feed
      (ColorMixingStationOverviewWidget.init "station1") "cyan" [0.5; 0.15; 0.3; 0.05]
    = Some (self', [[]; ["station1/cyan : 10% remaining"%string]; [];
                    ["station1/cyan : 0% remaining"%string]])
    /\ ColorMixingStationWidget.tanks (ColorMixingStationOverviewWidget.station self') !! "cyan"
       = Some w'
    /\ TankWidget.fill_level (PaintTankWidget.tank w') = 0.05.
Proof.
  apply (feed_compares_consecutive_samples [0.5; 0.15; 0.3; 0.05]
           (ColorMixingStationOverviewWidget.init "station1") "cyan"
           (fst (PaintTankWidget.init "station1" "cyan" 150))).
  reflexivity.
Defined.

(** X4. [setLevel] touches one thing: the stored level of the tank
    named.  The other tanks of the station keep their widgets, the
    station keeps its name, and the tank named keeps its slider, its
    timer, its valve label, its flow and its colour. *)
Theorem setLevel_changes_only_the_level
    (self self' : ColorMixingStationOverviewWidget.t) (tank_name : string)
    (level : Q) (alarms : list string) :
  ColorMixingStationOverviewWidget.setLevel self level tank_name = Some (self', alarms) ->
  ColorMixingStationOverviewWidget.station_name self'
    = ColorMixingStationOverviewWidget.station_name self
  /\ (forall other, other <> tank_name ->
        ColorMixingStationWidget.tanks (ColorMixingStationOverviewWidget.station self') !! other
        = ColorMixingStationWidget.tanks (ColorMixingStationOverviewWidget.station self) !! other)
  /\ exists w w',
       ColorMixingStationWidget.tanks (ColorMixingStationOverviewWidget.station self) !! tank_name
         = Some w
       /\ ColorMixingStationWidget.tanks (ColorMixingStationOverviewWidget.station self') !! tank_name
         = Some w'
       /\ TankWidget.fill_level (PaintTankWidget.tank w') = level
       /\ PaintTankWidget.slider_value w' = PaintTankWidget.slider_value w
       /\ PaintTankWidget.slider_down w' = PaintTankWidget.slider_down w
       /\ PaintTankWidget.timer_slider w' = PaintTankWidget.timer_slider w
       /\ TankWidget.valve (PaintTankWidget.tank w') = TankWidget.valve (PaintTankWidget.tank w)
       /\ TankWidget.flow (PaintTankWidget.tank w') = TankWidget.flow (PaintTankWidget.tank w)
       /\ TankWidget.fill_color (PaintTankWidget.tank w')
          = TankWidget.fill_color (PaintTankWidget.tank w).
Proof.
  intros Hset.
  destruct (ColorMixingStationWidget.tanks (ColorMixingStationOverviewWidget.station self)
              !! tank_name) as [w|] eqn:Hw.
  - rewrite (setLevel_eq self tank_name w level Hw) in Hset. injection Hset as <- _.
    split; [reflexivity|]. split.
    + intros other Hne. rewrite set_tank_lookup.
      destruct (decide (tank_name = other)); congruence.
    + exists w. eexists. split; [reflexivity|]. split.
      * rewrite set_tank_lookup. destruct (decide (tank_name = tank_name)); [reflexivity|congruence].
      * repeat split.
  - unfold ColorMixingStationOverviewWidget.setLevel in Hset. rewrite Hw in Hset. discriminate.
Qed.

Lemma setLevel_changes_only_the_level_witness :
  match ColorMixingStationOverviewWidget.setLevel
          (ColorMixingStationOverviewWidget.init "station1") 0.5 "cyan" with
  | Some (self', _) =>
      ColorMixingStationWidget.tanks (ColorMixingStationOverviewWidget.station self') !! "mixer"
      = ColorMixingStationWidget.tanks
          (ColorMixingStationOverviewWidget.station
             (ColorMixingStationOverviewWidget.init "station1")) !! "mixer"
  | None => False
  end.
Proof.
  destruct (ColorMixingStationOverviewWidget.setLevel
              (ColorMixingStationOverviewWidget.init "station1") 0.5 "cyan")
    as [[self' alarms]|] eqn:E.
  - apply (proj1 (proj2 (setLevel_changes_only_the_level _ _ _ _ _ E))). discriminate.
  - discriminate E.
Defined.

(** X5. On a new station [setLevel] fails, with the [KeyError] of the
    tank dictionary, exactly for the names that are none of the six
    tanks. *)
Theorem setLevel_unknown_tank (station_name tank_name : string) (level : Q) :
  ColorMixingStationOverviewWidget.setLevel
    (ColorMixingStationOverviewWidget.init station_name) level tank_name = None
  <-> ~ In tank_name (map fst ColorMixingStationWidget.tank_specs).
Proof.
  split.
  - intros Hnone Hin.
    destruct (init_tanks_lookup station_name tank_name Hin) as (w & Hw & _).
    rewrite (setLevel_eq (ColorMixingStationOverviewWidget.init station_name) tank_name
               w level Hw) in Hnone.
    discriminate.
  - intros Hnot. unfold ColorMixingStationOverviewWidget.setLevel.
    assert (Hw : ColorMixingStationWidget.tanks
                   (ColorMixingStationOverviewWidget.station
                      (ColorMixingStationOverviewWidget.init station_name)) !! tank_name = None).
    { cbn [ColorMixingStationOverviewWidget.init ColorMixingStationOverviewWidget.station
           ColorMixingStationWidget.init ColorMixingStationWidget.tanks].
      apply not_elem_of_list_to_map_1. rewrite list_elem_of_In. exact Hnot. }
    rewrite Hw. reflexivity.
Qed.

Lemma check_mixer_rising (station_name : string) (low high : Q) :
  low < 0.8 -> 0.8 <= high ->
  check_alarm_generation station_name low high "mixer"
  = [alarm_text station_name "mixer" high "full"].
Proof.
  intros Hlow Hhigh. unfold check_alarm_generation. cbn [String.eqb Ascii.eqb Bool.eqb].
  apply ltb_lt in Hlow. apply leb_le in Hhigh. unfold Py.geb.
  rewrite Hlow, Hhigh. reflexivity.
Qed.

Lemma check_mixer_falling (station_name : string) (low high : Q) :
  low <= high -> check_alarm_generation station_name high low "mixer" = [].
Proof.
  intros Hle. rewrite check_alarm_generation_crossed.
  change (role_of "mixer") with Ascending. cbn [thresholds existsb].
  rewrite !crossesb_against_direction by exact Hle. reflexivity.
Qed.

(** X6. The detector has no memory beyond the last sample: a mixer
    level that goes [n] times up to or above 0.8 and back below it raises
    [n] alarms, one at every upward crossing. *)
Theorem oscillation_alarms_every_time (n : nat) (low high : Q) :
  forall (self : ColorMixingStationOverviewWidget.t) (w : PaintTankWidget.t),
  ColorMixingStationWidget.tanks (ColorMixingStationOverviewWidget.station self) !! "mixer"
    = Some w ->
  TankWidget.fill_level (PaintTankWidget.tank w) < 0.8 ->
  low < 0.8 -> 0.8 <= high ->
  exists self',
    ColorMixingStationOverviewWidget.feed self "mixer" (concat (replicate n [high; low]))
    = Some (self',
            concat (replicate n
                      [[alarm_text (ColorMixingStationOverviewWidget.station_name self)
                          "mixer" high "full"]; []])).
Proof.
  induction n as [|n IH]; intros self w Hw Hstored Hlow Hhigh.
  - exists self. reflexivity.
  - cbn [replicate concat app ColorMixingStationOverviewWidget.feed].
    rewrite (setLevel_eq self "mixer" w high Hw).
    rewrite (check_mixer_rising _ _ _ Hstored Hhigh).
    set (self1 := ColorMixingStationOverviewWidget.set_tank self "mixer"
                    (apply_done 0 (Gui.LevelDone high) w)).
    assert (Hw1 : ColorMixingStationWidget.tanks (ColorMixingStationOverviewWidget.station self1)
                    !! "mixer" = Some (apply_done 0 (Gui.LevelDone high) w)).
    { unfold self1. rewrite set_tank_lookup. reflexivity. }
    rewrite (setLevel_eq self1 "mixer" _ low Hw1).
    change (TankWidget.fill_level (PaintTankWidget.tank (apply_done 0 (Gui.LevelDone high) w)))
      with high.
    rewrite (check_mixer_falling _ low high)
      by (apply Qle_trans with (y := 0.8); [apply Qlt_le_weak; exact Hlow | exact Hhigh]).
    set (self2 := ColorMixingStationOverviewWidget.set_tank self1 "mixer"
                    (apply_done 0 (Gui.LevelDone low)
                       (apply_done 0 (Gui.LevelDone high) w))).
    assert (Hw2 : ColorMixingStationWidget.tanks (ColorMixingStationOverviewWidget.station self2)
                    !! "mixer"
                  = Some (apply_done 0 (Gui.LevelDone low) (apply_done 0 (Gui.LevelDone high) w))).
    { unfold self2. rewrite set_tank_lookup. reflexivity. }
    destruct (IH self2 _ Hw2 Hlow Hlow Hhigh) as (self' & Hfeed).
    rewrite Hfeed. exists self'. reflexivity.
Qed.

Lemma oscillation_alarms_every_time_witness :
  exists self',
    ColorMixingStationOverviewWidget.feed
      (ColorMixingStationOverviewWidget.init "station1") "mixer"
      [0.81; 0.79; 0.81; 0.79; 0.81; 0.79]
    = Some (self', [["station1/mixer : 80% full"%string]; [];
                    ["station1/mixer : 80% full"%string]; [];
                    ["station1/mixer : 80% full"%string]; []]).
Proof.
  apply (oscillation_alarms_every_time 3 0.79 0.81
           (ColorMixingStationOverviewWidget.init "station1")
           (fst (PaintTankWidget.init "station1" "mixer" 860)));
    first [discriminate | reflexivity].
Defined.

(** ** The alarm panel, whatever its size *)

(** X7. [write_new_alarm] fails, with the [IndexError] of
    [alarm_labels[0]], exactly on a panel without labels.  On any other
    panel it keeps the number of labels, shows the new record at index 0,
    and every label below shows what the label above it showed. *)
Theorem write_new_alarm_shifts (now : struct_time) (alarm_text : string) (labels : list string) :
  (write_new_alarm now alarm_text labels = None <-> labels = [])
  /\ forall labels', write_new_alarm now alarm_text labels = Some labels' ->
       length labels' = length labels
       /\ labels' !! 0%nat = Some (record_text (now, alarm_text))
       /\ forall i, (S i < length labels)%nat -> labels' !! S i = labels !! i.
Proof.
  split.
  - split.
    + intros Hnone. destruct labels as [|a l]; [reflexivity|].
      rewrite write_new_alarm_cons in Hnone by discriminate. discriminate.
    + intros ->. reflexivity.
  - intros labels' Hsome. destruct labels as [|a l]; [discriminate|].
    rewrite write_new_alarm_cons in Hsome by discriminate. injection Hsome as <-.
    split; [|split].
    + cbn [length]. rewrite length_take. cbn [length]. lia.
    + reflexivity.
    + intros i Hi. cbn [lookup list_lookup]. change (length (a :: l)) with (S (length l)) in *.
      apply lookup_take_lt. lia.
Qed.

Lemma write_new_alarm_shifts_witness :
  write_new_alarm (mkTime 2024 3 9 14 5 7) "station1/mixer : 80% full" ["b"; "a"; ""]%string
  = Some ["09/03/2024 14:05:07 : station1/mixer : 80% full"; "b"; "a"]%string.
Proof.
  destruct (write_new_alarm (mkTime 2024 3 9 14 5 7) "station1/mixer : 80% full"
              ["b"; "a"; ""]%string) as [labels'|] eqn:E.
  - destruct (proj2 (write_new_alarm_shifts (mkTime 2024 3 9 14 5 7)
                       "station1/mixer : 80% full" ["b"; "a"; ""]%string) labels' E)
      as (Hlen & H0 & Hshift).
    pose proof (Hshift 0%nat ltac:(simpl; lia)) as H1.
    pose proof (Hshift 1%nat ltac:(simpl; lia)) as H2.
    destruct labels' as [|x0 [|x1 [|x2 [|x3 rest]]]]; try discriminate Hlen.
    injection H0 as ->. injection H1 as ->. injection H2 as ->. reflexivity.
  - discriminate E.
Defined.

Lemma string_length_app (a b : string) :
  String.length (a +:+ b) = (String.length a + String.length b)%nat.
Proof.
  induction a as [|c a IH]; [reflexivity|].
  change (S (String.length (a +:+ b)) = S (String.length a + String.length b)).
  rewrite IH. reflexivity.
Qed.

Lemma bounded_Z_check (P : Z -> bool) (lo len : Z) :
  forallb (fun k => P (lo + Z.of_nat k)%Z) (seq 0 (Z.to_nat len)) = true ->
  forall n, (lo <= n < lo + len)%Z -> P n = true.
Proof.
  intros Hall n Hn. rewrite forallb_forall in Hall.
  replace n with (lo + Z.of_nat (Z.to_nat (n - lo)))%Z by lia.
  apply Hall. apply in_seq. lia.
Qed.

Lemma format_02_length (n : Z) : (0 <= n < 100)%Z -> String.length (Py.format_02 n) = 2%nat.
Proof.
  intros Hn. apply Nat.eqb_eq.
  apply (bounded_Z_check (fun k => Nat.eqb (String.length (Py.format_02 k)) 2) 0 100);
    [vm_compute; reflexivity | exact Hn].
Qed.

Lemma str_year_length (n : Z) : (1000 <= n < 10000)%Z -> String.length (Py.str n) = 4%nat.
Proof.
  intros Hn. apply Nat.eqb_eq.
  apply (bounded_Z_check (fun k => Nat.eqb (String.length (Py.str k)) 4) 1000 9000);
    [vm_compute; reflexivity | lia].
Qed.

(** X8. For a clock reading with a four-digit year, and day, month,
    hour, minute and second below 100, the time stamp has 19 characters,
    so that in every label the alarm text starts at offset 22. *)
Theorem timestamp_has_19_characters (now : struct_time) (alarm_text : string) :
  (1000 <= tm_year now < 10000)%Z ->
  (0 <= tm_mon now < 100)%Z -> (0 <= tm_mday now < 100)%Z ->
  (0 <= tm_hour now < 100)%Z -> (0 <= tm_min now < 100)%Z -> (0 <= tm_sec now < 100)%Z ->
  String.length (timestamp now) = 19%nat
  /\ String.length (record_text (now, alarm_text)) = (22 + String.length alarm_text)%nat.
Proof.
  intros Hy Hmo Hd Hh Hmi Hs.
  assert (Hts : String.length (timestamp now) = 19%nat).
  { unfold timestamp. rewrite !string_length_app.
    rewrite !format_02_length by assumption. rewrite str_year_length by assumption.
    reflexivity. }
  split; [exact Hts|].
  unfold record_text. cbn [fst snd]. rewrite !string_length_app, Hts. reflexivity.
Qed.

Lemma timestamp_has_19_characters_witness :
  String.length (timestamp (mkTime 2024 3 9 14 5 7)) = 19%nat.
Proof.
  apply (timestamp_has_19_characters (mkTime 2024 3 9 14 5 7) "x"); simpl; lia.
Defined.

(** ** The slots of the [Gui] *)

Lemma tank_at_Some (gui : Gui.t) (i : nat) (tank_name : string) (w : PaintTankWidget.t) :
  tank_at gui i tank_name = Some w ->
  exists ov,
    Gui.station_overviews gui !! i = Some ov
    /\ ColorMixingStationWidget.tanks (ColorMixingStationOverviewWidget.station ov) !! tank_name
       = Some w.
Proof.
  unfold tank_at. destruct (Gui.station_overviews gui !! i) as [ov|]; [|discriminate].
  intros H. exists ov. split; [reflexivity | exact H].
Qed.

(** The labels after the calls of [wrt_alarm] of one slot. *)
Lemma write_alarms_now (now : struct_time) (alarms labels : list string) :
  labels <> [] ->
  write_alarms (map (fun a => (now, a)) alarms) labels =
  Some (take (length labels)
          (reverse (map (fun a => record_text (now, a)) alarms) ++ labels)).
Proof.
  intros Hne. rewrite write_alarms_take by exact Hne. rewrite map_map. reflexivity.
Qed.

(** A slot, when the tank exists and the panel has labels. *)
Lemma on_done_eq (ms : Z) (now : struct_time) (i : nat) (tank_name : string) (d : Gui.done)
    (gui : Gui.t) (ov : ColorMixingStationOverviewWidget.t) (w : PaintTankWidget.t) :
  Gui.station_overviews gui !! i = Some ov ->
  ColorMixingStationWidget.tanks (ColorMixingStationOverviewWidget.station ov) !! tank_name
    = Some w ->
  Gui.alarm_labels gui <> [] ->
  Gui.on_done ms now i tank_name d gui =
  Some (Gui.mk
          (<[i := ColorMixingStationOverviewWidget.set_tank ov tank_name (apply_done ms d w)]>
             (Gui.station_overviews gui))
          (take (length (Gui.alarm_labels gui))
             (reverse (map (fun a => record_text (now, a))
                         (alarms_of_done (ColorMixingStationOverviewWidget.station_name ov)
                            tank_name d w))
              ++ Gui.alarm_labels gui))).
Proof.
  intros Hov Hw Hne. unfold Gui.on_done. rewrite Hov.
  destruct d as [level|flow|color|valve].
  - rewrite (setLevel_eq ov tank_name w level Hw).
    rewrite write_alarms_now by exact Hne. reflexivity.
  - rewrite Hw. cbn [alarms_of_done map]. change (reverse (@nil string)) with (@nil string).
    cbn [app]. rewrite take_ge by lia. reflexivity.
  - rewrite Hw. cbn [alarms_of_done map]. change (reverse (@nil string)) with (@nil string).
    cbn [app]. rewrite take_ge by lia. reflexivity.
  - rewrite Hw. cbn [alarms_of_done map]. change (reverse (@nil string)) with (@nil string).
    cbn [app]. rewrite take_ge by lia. reflexivity.
Qed.

Lemma tank_at_insert (overviews : list ColorMixingStationOverviewWidget.t) (labels labels' : list string)
    (i j : nat) (tank_name other : string)
    (ov : ColorMixingStationOverviewWidget.t) (w1 : PaintTankWidget.t) :
  overviews !! i = Some ov ->
  tank_at (Gui.mk (<[i := ColorMixingStationOverviewWidget.set_tank ov tank_name w1]> overviews)
             labels') j other
  = if decide (i = j /\ tank_name = other) then Some w1
    else tank_at (Gui.mk overviews labels) j other.
Proof.
  intros Hov. unfold tank_at. cbn [Gui.station_overviews].
  assert (Hi : (i < length overviews)%nat) by (eapply lookup_lt_Some; exact Hov).
  destruct (decide (i = j)) as [<-|Hij].
  - rewrite list_lookup_insert_eq by exact Hi. rewrite Hov, set_tank_lookup.
    destruct (decide (tank_name = other)) as [->|Hne].
    + destruct (decide (i = i /\ other = other)) as [_|Hn]; [reflexivity | destruct Hn; auto].
    + destruct (decide (i = i /\ tank_name = other)) as [[_ E]|_]; [congruence | reflexivity].
  - rewrite list_lookup_insert_ne by exact Hij.
    destruct (decide (i = j /\ tank_name = other)) as [[E _]|_]; [congruence | reflexivity].
Qed.

(** Signals of one tank, delivered in order: no slot fails, the widget
    of the tank goes through the slots, the other widgets stay, and the
    panel keeps its size. *)
Lemma deliver_spec (ms : Z) (now : struct_time) (i : nat) (tank_name : string)
    (ds : list Gui.done) :
  forall (gui : Gui.t) (w : PaintTankWidget.t),
  tank_at gui i tank_name = Some w ->
  Gui.alarm_labels gui <> [] ->
  exists gui',
    Gui.deliver ms now i tank_name ds gui = Some gui'
    /\ tank_at gui' i tank_name = Some (foldl (fun w d => apply_done ms d w) w ds)
    /\ (forall j other, ~ (i = j /\ tank_name = other) ->
          tank_at gui' j other = tank_at gui j other)
    /\ length (Gui.alarm_labels gui') = length (Gui.alarm_labels gui)
    /\ length (Gui.station_overviews gui') = length (Gui.station_overviews gui).
Proof.
  induction ds as [|d ds IH]; intros gui w Hw Hne.
  - exists gui. repeat split; auto.
  - destruct (tank_at_Some gui i tank_name w Hw) as (ov & Hov & Hlook).
    cbn [Gui.deliver]. rewrite (on_done_eq ms now i tank_name d gui ov w Hov Hlook Hne).
    set (labels1 := take _ _). set (gui1 := Gui.mk _ labels1).
    assert (Hlen1 : length labels1 = length (Gui.alarm_labels gui)).
    { unfold labels1. rewrite length_take, length_app. lia. }
    assert (Hat : forall j other,
              tank_at gui1 j other
              = if decide (i = j /\ tank_name = other) then Some (apply_done ms d w)
                else tank_at gui j other).
    { intros j other. unfold gui1.
      rewrite (tank_at_insert _ (Gui.alarm_labels gui) labels1 i j tank_name other ov _ Hov).
      destruct gui. reflexivity. }
    assert (Hw1 : tank_at gui1 i tank_name = Some (apply_done ms d w)).
    { rewrite Hat. destruct (decide (i = i /\ tank_name = tank_name)) as [_|Hn];
        [reflexivity | destruct Hn; auto]. }
    assert (Hne1 : Gui.alarm_labels gui1 <> []).
    { cbn. intros E. rewrite E in Hlen1. destruct (Gui.alarm_labels gui); [congruence|discriminate]. }
    destruct (IH gui1 _ Hw1 Hne1) as (gui' & Hdel & Hfinal & Hframe & Hlabels & Hstations).
    exists gui'. split; [exact Hdel|]. split; [exact Hfinal|]. split; [|split].
    + intros j other Hother. rewrite Hframe by exact Hother. rewrite Hat.
      destruct (decide (i = j /\ tank_name = other)); [contradiction | reflexivity].
    + rewrite Hlabels. exact Hlen1.
    + rewrite Hstations. unfold gui1. cbn. apply length_insert.
Qed.

Lemma init_tank_at (i : nat) (tank_name : string) :
  (i < 6)%nat -> In tank_name (map fst ColorMixingStationWidget.tank_specs) ->
  exists w, tank_at Gui.init i tank_name = Some w
            /\ TankWidget.fill_level (PaintTankWidget.tank w) = 0
            /\ PaintTankWidget.timer_slider w = None.
Proof.
  intros Hi Hin. unfold tank_at.
  assert (Hov : exists st, Gui.station_overviews Gui.init !! i
                           = Some (ColorMixingStationOverviewWidget.init st)).
  { do 6 (destruct i as [|i]; [eexists; reflexivity|]). lia. }
  destruct Hov as (st & ->). apply (init_tanks_lookup st tank_name Hin).
Qed.

(** X9. A new [Gui] has the six tanks of its six stations and ten
    alarm labels, every slot keeps that, and in such a state the slot of
    any [done] signal of any of these tanks runs without [KeyError] or
    [IndexError]. *)
Theorem gui_slots_never_fail :
  Gui_ok Gui.init
  /\ forall (gui : Gui.t) (ms : Z) (now : struct_time) (i : nat) (tank_name : string)
            (d : Gui.done),
       Gui_ok gui ->
       (i < 6)%nat -> In tank_name (map fst ColorMixingStationWidget.tank_specs) ->
       exists gui', Gui.on_done ms now i tank_name d gui = Some gui' /\ Gui_ok gui'.
Proof.
  split.
  - split; [reflexivity|]. intros i tank_name Hi Hin.
    destruct (init_tank_at i tank_name Hi Hin) as (w & Hw & _). rewrite Hw. eexists; reflexivity.
  - intros gui ms now i tank_name d [Hlabels Htanks] Hi Hin.
    destruct (Htanks i tank_name Hi Hin) as [w Hw].
    assert (Hne : Gui.alarm_labels gui <> []).
    { intros E. rewrite E in Hlabels. discriminate. }
    destruct (deliver_spec ms now i tank_name [d] gui w Hw Hne)
      as (gui' & Hdel & Hfinal & Hframe & Hlen & _).
    cbn [Gui.deliver] in Hdel.
    destruct (Gui.on_done ms now i tank_name d gui) as [gui1|]; [|discriminate].
    injection Hdel as ->. exists gui'. split; [reflexivity|]. split.
    + rewrite Hlen. exact Hlabels.
    + intros j other Hj Hother.
      destruct (decide (i = j /\ tank_name = other)) as [[<- <-]|Hn].
      * rewrite Hfinal. eexists; reflexivity.
      * rewrite Hframe by exact Hn. apply Htanks; assumption.
Qed.

Lemma gui_slots_never_fail_witness :
  exists gui',
    Gui.on_done 0 (mkTime 2024 3 9 14 5 7) 2 "mixer" (Gui.LevelDone 0.85) Gui.init = Some gui'
    /\ Gui_ok gui'.
Proof.
  apply (proj2 gui_slots_never_fail Gui.init 0%Z (mkTime 2024 3 9 14 5 7) 2%nat "mixer"%string
           (Gui.LevelDone 0.85) (proj1 gui_slots_never_fail)).
  - lia.
  - simpl. auto 10.
Defined.

(** X10. The signals of one tank change the widget of that tank only:
    the widget of every other tank, of the same station or of another, is
    what it was. *)
Theorem deliver_leaves_other_tanks
    (ms : Z) (now : struct_time) (i : nat) (tank_name : string) (ds : list Gui.done)
    (gui : Gui.t) (w : PaintTankWidget.t) :
  tank_at gui i tank_name = Some w ->
  Gui.alarm_labels gui <> [] ->
  exists gui',
    Gui.deliver ms now i tank_name ds gui = Some gui'
    /\ forall j other, ~ (i = j /\ tank_name = other) ->
         tank_at gui' j other = tank_at gui j other.
Proof.
  intros Hw Hne.
  destruct (deliver_spec ms now i tank_name ds gui w Hw Hne) as (gui' & Hdel & _ & Hframe & _).
  exists gui'. split; [exact Hdel | exact Hframe].
Qed.

Lemma deliver_leaves_other_tanks_witness :
  exists gui',
    Gui.deliver 0 (mkTime 2024 3 9 14 5 7) 0 "cyan"
      [Gui.LevelDone 0.15; Gui.FlowDone 2; Gui.ValveDone 0.5] Gui.init = Some gui'
    /\ tank_at gui' 0 "mixer" = tank_at Gui.init 0 "mixer"
    /\ tank_at gui' 1 "cyan" = tank_at Gui.init 1 "cyan".
Proof.
  destruct (deliver_leaves_other_tanks 0 (mkTime 2024 3 9 14 5 7) 0 "cyan"
              [Gui.LevelDone 0.15; Gui.FlowDone 2; Gui.ValveDone 0.5] Gui.init
              (fst (PaintTankWidget.init "station1" "cyan" 150)) eq_refl)
    as (gui' & Hdel & Hframe); [discriminate|].
  exists gui'. split; [exact Hdel|]. split; apply Hframe; intros [E1 E2]; discriminate.
Defined.

Lemma setValve_keeps_tank (now : Z) (w : PaintTankWidget.t) (valve : Q) :
  TankWidget.fill_color (PaintTankWidget.tank (PaintTankWidget.setValve now w valve))
    = TankWidget.fill_color (PaintTankWidget.tank w)
  /\ TankWidget.fill_level (PaintTankWidget.tank (PaintTankWidget.setValve now w valve))
    = TankWidget.fill_level (PaintTankWidget.tank w)
  /\ TankWidget.flow (PaintTankWidget.tank (PaintTankWidget.setValve now w valve))
    = TankWidget.flow (PaintTankWidget.tank w).
Proof.
  unfold PaintTankWidget.setValve, PaintTankWidget.slider_setValue.
  destruct (PaintTankWidget.timer_slider w); [repeat split|].
  destruct (PaintTankWidget.slider_down w); [repeat split|]. cbn [negb].
  destruct (Z.eqb _ _); repeat split.
Qed.

(** X11. The signals of a polling round whose four reads succeed,
    delivered to the [Gui], leave the widget of the tank with the colour,
    the level and the flow that were read; the other tanks stay as they
    were and the panel keeps its size. *)
Theorem successful_round_reaches_widget
    (self : TangoBackgroundWorker.t) (ms : Z) (now : struct_time) (i : nat)
    (gui : Gui.t) (w : PaintTankWidget.t) (c : string) (l f v : Q) :
  tank_at gui i (TangoBackgroundWorker.tank_name self) = Some w ->
  Gui.alarm_labels gui <> [] ->
  exists gui' w',
    Gui.deliver ms now i (TangoBackgroundWorker.tank_name self)
      (TangoBackgroundWorker.emitted
         (TangoBackgroundWorker.actions
            (TangoBackgroundWorker.round self
               (TangoBackgroundWorker.mkAnswers
                  (TangoBackgroundWorker.Value c) (TangoBackgroundWorker.Value l)
                  (TangoBackgroundWorker.Value f) (TangoBackgroundWorker.Value v)))))
      gui = Some gui'
    /\ tank_at gui' i (TangoBackgroundWorker.tank_name self) = Some w'
    /\ TankWidget.fill_color (PaintTankWidget.tank w') = c
    /\ TankWidget.fill_level (PaintTankWidget.tank w') = l
    /\ TankWidget.flow (PaintTankWidget.tank w') = f
    /\ length (Gui.alarm_labels gui') = length (Gui.alarm_labels gui).
Proof.
  intros Hw Hne.
  change (TangoBackgroundWorker.emitted _)
    with [Gui.ColorDone c; Gui.LevelDone l; Gui.FlowDone f; Gui.ValveDone v].
  destruct (deliver_spec ms now i (TangoBackgroundWorker.tank_name self)
              [Gui.ColorDone c; Gui.LevelDone l; Gui.FlowDone f; Gui.ValveDone v] gui w Hw Hne)
    as (gui' & Hdel & Hfinal & _ & Hlen & _).
  exists gui'. eexists. split; [exact Hdel|]. split; [exact Hfinal|].
  cbn [foldl apply_done].
  destruct (setValve_keeps_tank ms
              (PaintTankWidget.setFlow
                 (PaintTankWidget.set_tank (PaintTankWidget.setColor w c)
                    (TankWidget.set_fill_level
                       (PaintTankWidget.tank (PaintTankWidget.setColor w c)) l)) f) v)
    as (Hc & Hl & Hf).
  rewrite Hc, Hl, Hf. repeat split. exact Hlen.
Qed.

Lemma successful_round_reaches_widget_witness :
  exists gui' w',
    Gui.deliver 0 (mkTime 2024 3 9 14 5 7) 0 "cyan"
      [Gui.ColorDone "#00ffff"; Gui.LevelDone 0.5; Gui.FlowDone 2; Gui.ValveDone 0.3]
      Gui.init = Some gui'
    /\ tank_at gui' 0 "cyan" = Some w'
    /\ TankWidget.fill_color (PaintTankWidget.tank w') = "#00ffff"%string
    /\ TankWidget.fill_level (PaintTankWidget.tank w') = 0.5
    /\ TankWidget.flow (PaintTankWidget.tank w') = 2
    /\ length (Gui.alarm_labels gui') = 10%nat.
Proof.
  apply (successful_round_reaches_widget (TangoBackgroundWorker.init "station1" "cyan")
           0 (mkTime 2024 3 9 14 5 7) 0 Gui.init
           (fst (PaintTankWidget.init "station1" "cyan" 150)) "#00ffff" 0.5 2 0.3).
  - reflexivity.
  - discriminate.
Defined.

(** X12. A level signal that raises an alarm puts its record, the time
    stamp and the alarm text, at index 0 of the panel and moves the other
    labels one place down; a level signal that raises none, and every
    other signal, leaves the panel as it is. *)
Theorem alarm_reaches_panel
    (ms : Z) (now : struct_time) (i : nat) (tank_name : string) (d : Gui.done)
    (gui : Gui.t) (ov : ColorMixingStationOverviewWidget.t) (w : PaintTankWidget.t) :
  Gui.station_overviews gui !! i = Some ov ->
  ColorMixingStationWidget.tanks (ColorMixingStationOverviewWidget.station ov) !! tank_name
    = Some w ->
  Gui.alarm_labels gui <> [] ->
  exists gui',
    Gui.on_done ms now i tank_name d gui = Some gui'
    /\ Gui.alarm_labels gui' =
       match d with
       | Gui.LevelDone level =>
           match check_alarm_generation (ColorMixingStationOverviewWidget.station_name ov)
                   (TankWidget.fill_level (PaintTankWidget.tank w)) level tank_name with
           | [] => Gui.alarm_labels gui
           | alarm :: _ =>
               (timestamp now +:+ " : " +:+ alarm)%string
                 :: take (length (Gui.alarm_labels gui) - 1) (Gui.alarm_labels gui)
           end
       | _ => Gui.alarm_labels gui
       end.
Proof.
  intros Hov Hw Hne. rewrite (on_done_eq ms now i tank_name d gui ov w Hov Hw Hne).
  eexists. split; [reflexivity|]. cbn [Gui.alarm_labels].
  assert (Hid : take (length (Gui.alarm_labels gui)) (Gui.alarm_labels gui)
                = Gui.alarm_labels gui) by (apply take_ge; lia).
  destruct d as [level|flow|color|valve]; cbn [alarms_of_done]; try exact Hid.
  pose proof (check_alarm_generation_length (ColorMixingStationOverviewWidget.station_name ov)
                (TankWidget.fill_level (PaintTankWidget.tank w)) level tank_name) as Hlen.
  destruct (check_alarm_generation _ _ _ _) as [|alarm [|alarm' rest]].
  - exact Hid.
  - change (reverse (map (fun a => record_text (now, a)) [alarm]))
      with [record_text (now, alarm)].
    destruct (Gui.alarm_labels gui) as [|a0 labels]; [congruence|].
    cbn [app length take]. replace (S (length labels) - 1)%nat with (length labels) by lia.
    reflexivity.
  - cbn [length] in Hlen. lia.
Qed.

Lemma alarm_reaches_panel_witness :
  exists gui',
    Gui.on_done 0 (mkTime 2024 3 9 14 5 7) 0 "mixer" (Gui.LevelDone 0.85) Gui.init = Some gui'
    /\ Gui.alarm_labels gui' =
       ("09/03/2024 14:05:07 : station1/mixer : 80% full" :: replicate 9 "")%string.
Proof.
  apply (alarm_reaches_panel 0 (mkTime 2024 3 9 14 5 7) 0 "mixer" (Gui.LevelDone 0.85) Gui.init
           (ColorMixingStationOverviewWidget.init "station1")
           (fst (PaintTankWidget.init "station1" "mixer" 860))).
  - reflexivity.
  - reflexivity.
  - discriminate.
Defined.

(** ** The polling loop over many rounds *)

Lemma round_emits_snapshot (self : TangoBackgroundWorker.t) (ans : TangoBackgroundWorker.answers) :
  TangoBackgroundWorker.emitted
    (TangoBackgroundWorker.actions (TangoBackgroundWorker.round self ans))
  = snapshot ans.
Proof. destruct ans as [[c|e1] [l|e2] [f|e3] [v|e4]]; reflexivity. Qed.

Lemma round_pauses_once (self : TangoBackgroundWorker.t) (ans : TangoBackgroundWorker.answers) :
  pauses (TangoBackgroundWorker.actions (TangoBackgroundWorker.round self ans))
  = [TangoBackgroundWorker.interval self].
Proof. destruct ans as [[c|e1] [l|e2] [f|e3] [v|e4]]; reflexivity. Qed.

Lemma round_reads_own (self : TangoBackgroundWorker.t) (ans : TangoBackgroundWorker.answers) :
  Forall (fun p => In p (TangoBackgroundWorker.read_order self))
    (TangoBackgroundWorker.reads
       (TangoBackgroundWorker.actions (TangoBackgroundWorker.round self ans))).
Proof.
  destruct ans as [[c|e1] [l|e2] [f|e3] [v|e4]];
    repeat (constructor; [simpl; auto 6|]); constructor.
Qed.

Lemma pauses_app (a b : list TangoBackgroundWorker.action) :
  pauses (a ++ b) = pauses a ++ pauses b.
Proof. apply omap_app. Qed.

Lemma snapshot_length (ans : TangoBackgroundWorker.answers) :
  length (snapshot ans) = if TangoBackgroundWorker.all_succeed ans then 4%nat else 0%nat.
Proof. destruct ans as [[c|e1] [l|e2] [f|e3] [v|e4]]; reflexivity. Qed.

(** X13. Over any number of rounds the polling loop emits whole
    snapshots only: its signals are, round after round, the four values
    (color, level, flow, valve) of each round whose reads all succeeded,
    four signals per such round, and it pauses [interval] seconds once
    per round, failed or not.  A worker whose proxies cannot be created
    emits nothing and reads nothing. *)
Theorem polling_emits_whole_snapshots
    (self : TangoBackgroundWorker.t) (anss : list TangoBackgroundWorker.answers) :
  TangoBackgroundWorker.emitted (TangoBackgroundWorker.run self true anss)
    = flat_map snapshot anss
  /\ length (TangoBackgroundWorker.emitted (TangoBackgroundWorker.run self true anss))
     = (4 * length (List.filter TangoBackgroundWorker.all_succeed anss))%nat
  /\ pauses (TangoBackgroundWorker.run self true anss)
     = replicate (length anss) (TangoBackgroundWorker.interval self)
  /\ TangoBackgroundWorker.emitted (TangoBackgroundWorker.run self false anss) = []
  /\ TangoBackgroundWorker.reads (TangoBackgroundWorker.run self false anss) = [].
Proof.
  assert (Hem : TangoBackgroundWorker.emitted (TangoBackgroundWorker.run self true anss)
                = flat_map snapshot anss).
  { unfold TangoBackgroundWorker.run.
    change (TangoBackgroundWorker.emitted (?a :: fst ?m))
      with (TangoBackgroundWorker.emitted (TangoBackgroundWorker.actions m)).
    induction anss as [|ans anss IH]; [reflexivity|].
    rewrite rounds_cons, emitted_app, round_emits_snapshot, IH. reflexivity. }
  split; [exact Hem|]. split.
  { rewrite Hem. clear Hem. induction anss as [|ans anss IH]; [reflexivity|].
    cbn [flat_map List.filter]. rewrite length_app, snapshot_length, IH.
    destruct (TangoBackgroundWorker.all_succeed ans); cbn [length]; lia. }
  split.
  { clear Hem. unfold TangoBackgroundWorker.run.
    change (pauses (?a :: fst ?m)) with (pauses (TangoBackgroundWorker.actions m)).
    induction anss as [|ans anss IH]; [reflexivity|].
    rewrite rounds_cons.
    rewrite pauses_app, round_pauses_once, IH. reflexivity. }
  split; reflexivity.
Qed.

(** X14. A polling worker reads nothing but the four attributes of its
    own tank. *)
Theorem polling_reads_own_tank
    (self : TangoBackgroundWorker.t) (proxies : bool)
    (anss : list TangoBackgroundWorker.answers) :
  Forall (fun p => In p (map (attribute_path (TangoBackgroundWorker.station_name self)
                               (TangoBackgroundWorker.tank_name self))
                           ["color"; "level"; "flow"; "valve"]%string))
    (TangoBackgroundWorker.reads (TangoBackgroundWorker.run self proxies anss)).
Proof.
  unfold TangoBackgroundWorker.run. destruct proxies; [|constructor].
  change (TangoBackgroundWorker.reads (?a :: fst ?m))
    with (TangoBackgroundWorker.reads (TangoBackgroundWorker.actions m)).
  induction anss as [|ans anss IH]; [constructor|].
  rewrite rounds_cons, reads_app. apply Forall_app. split; [|exact IH].
  apply round_reads_own.
Qed.

(** ** The workers of the thread pool *)

(** X15. A write worker signals [done] exactly when the proxy could be
    created and both the write and the read-back succeeded, and then with
    the value read back, not the value written.  A failure of the write
    or of the read is caught; a failure to create the proxy is not, and
    then the device is neither written nor read. *)
Theorem write_worker_signals_read_back
    (self : TangoWriteAttributeWorker) (proxy written : Worker.outcome unit)
    (read_back : Worker.outcome Q) :
  Worker.emitted (fst (Worker.write_run self proxy written read_back))
    = match proxy, written, read_back with
      | Worker.Returns _, Worker.Returns _, Worker.Returns v => [v]
      | _, _, _ => []
      end
  /\ snd (Worker.write_run self proxy written read_back)
     = match proxy with
       | Worker.Raises e => inl e
       | Worker.Returns _ => inr tt
       end
  /\ (In (Worker.Write (write_path self) (write_value self))
         (fst (Worker.write_run self proxy written read_back))
      <-> Worker.is_ok proxy = true)
  /\ (In (Worker.Read (write_path self))
         (fst (Worker.write_run self proxy written read_back))
      <-> Worker.is_ok proxy = true /\ Worker.is_ok written = true).
Proof.
  destruct proxy as [[]|e1], written as [[]|e2], read_back as [v|e3];
    (split; [reflexivity|]); (split; [reflexivity|]); cbn; split; split;
    intuition (try discriminate; try congruence).
Qed.

(** X16. A command worker ([Fill], [Flush]) never lets an exception
    escape: creating the proxy, finding the command and calling it are
    all inside the [try].  It signals [done], with the result of the
    call, exactly when the three of them succeed. *)
Theorem command_worker_catches_all
    (self : Worker.TangoRunCommandWorker) (proxy found : Worker.outcome unit)
    (called : Worker.outcome Q) :
  snd (Worker.command_run self proxy found called) = inr tt
  /\ Worker.emitted (fst (Worker.command_run self proxy found called))
     = match proxy, found, called with
       | Worker.Returns _, Worker.Returns _, Worker.Returns v => [v]
       | _, _, _ => []
       end
  /\ (In (Worker.Call (Worker.command self)) (fst (Worker.command_run self proxy found called))
      <-> Worker.is_ok proxy = true /\ Worker.is_ok found = true).
Proof.
  destruct proxy as [[]|e1], found as [[]|e2], called as [v|e3];
    (split; [reflexivity|]); (split; [reflexivity|]); cbn; split;
    intuition (try discriminate; try congruence).
Qed.

(** ** Device names *)

Lemma str_split_no_sep (sep : Ascii.ascii) (s : string) :
  ~ In sep (chars s) -> str_split sep s = [s].
Proof.
  induction s as [|c s IH]; intros Hno; [reflexivity|].
  cbn [str_split]. destruct (Ascii.eqb_spec c sep) as [->|Hne].
  - exfalso. apply Hno. left. reflexivity.
  - rewrite IH; [reflexivity|]. intros Hin. apply Hno. right. exact Hin.
Qed.

Lemma str_split_app (sep : Ascii.ascii) (a b : string) :
  ~ In sep (chars a) ->
  str_split sep (a +:+ String sep b) = a :: str_split sep b.
Proof.
  induction a as [|c a IH]; intros Hno.
  - change (EmptyString +:+ String sep b)%string with (String sep b).
    cbn [str_split]. rewrite Ascii.eqb_refl. reflexivity.
  - change (String c a +:+ String sep b)%string with (String c (a +:+ String sep b)).
    cbn [str_split]. destruct (Ascii.eqb_spec c sep) as [->|Hne].
    + exfalso. apply Hno. left. reflexivity.
    + rewrite IH; [reflexivity|]. intros Hin. apply Hno. right. exact Hin.
Qed.

Lemma str_split_length (sep : Ascii.ascii) (s : string) :
  length (str_split sep s) = S (count_occ Ascii.ascii_dec (chars s) sep).
Proof.
  induction s as [|c s IH]; [reflexivity|].
  cbn [str_split chars count_occ].
  destruct (Ascii.eqb_spec c sep) as [->|Hne].
  - destruct (Ascii.ascii_dec sep sep); [|congruence]. cbn [length]. rewrite IH. reflexivity.
  - destruct (Ascii.ascii_dec c sep); [congruence|].
    destruct (str_split sep s); [discriminate IH | exact IH].
Qed.

Lemma index_from_end_Some {A} (l : list A) (k : nat) :
  (1 <= k <= length l)%nat -> is_Some (index_from_end l k).
Proof.
  intros Hk. unfold index_from_end.
  destruct (Nat.leb_spec k (length l)); [|lia]. apply lookup_lt_is_Some_2. lia.
Qed.

(** X17. The device name that the GUI builds for a tank, split by
    [init_device] of the device server, gives back the station name and
    the tank name, provided neither contains a slash. *)
Theorem device_name_round_trip (station_name tank_name : string) :
  ~ In slash (chars station_name) -> ~ In slash (chars tank_name) ->
  init_device_names (Worker.device_path station_name tank_name)
  = Some (station_name, tank_name).
Proof.
  intros Hst Htk. unfold init_device_names, Worker.device_path.
  change ("/" +:+ station_name +:+ "/" +:+ tank_name)%string
    with (String slash (station_name +:+ String slash tank_name)).
  rewrite str_split_app
    by (cbn; intros H; repeat (destruct H as [H|H]; [discriminate H|]); exact H).
  rewrite (str_split_app slash station_name tank_name Hst).
  rewrite (str_split_no_sep slash tank_name Htk). reflexivity.
Qed.

Lemma device_name_round_trip_witness :
  init_device_names (Worker.device (on_flush (fst (PaintTankWidget.init "station3" "mixer" 860))))
  = Some ("station3", "mixer")%string.
Proof.
  apply (device_name_round_trip "station3" "mixer");
    cbn; intros H; repeat (destruct H as [H|H]; [discriminate H|]); exact H.
Defined.

(** X18. [init_device] fails on its name, with the [IndexError] of
    [split('/')[-2]], exactly when the name contains no slash. *)
Theorem init_device_names_needs_slash (name : string) :
  init_device_names name = None <-> ~ In slash (chars name).
Proof.
  unfold init_device_names. pose proof (str_split_length slash name) as Hlen.
  split.
  - intros Hnone Hin.
    assert (Hc : (0 < count_occ Ascii.ascii_dec (chars name) slash)%nat)
      by (apply count_occ_In; exact Hin).
    destruct (index_from_end_Some (str_split slash name) 2 ltac:(lia)) as [x Hx].
    destruct (index_from_end_Some (str_split slash name) 1 ltac:(lia)) as [y Hy].
    rewrite Hx, Hy in Hnone. discriminate.
  - intros Hno. rewrite (str_split_no_sep slash name Hno). reflexivity.
Qed.

(** X19. The devices registered by register-server.py are the 36
    devices that the workers of a new [Gui] address, in the same order
    and each once, and [init_device] finds in each registered name the
    station and the tank it was registered for. *)
Theorem registered_devices_are_gui_devices :
  registered_devices = gui_devices Gui.init
  /\ length registered_devices = 36%nat
  /\ NoDup registered_devices
  /\ map init_device_names registered_devices
     = flat_map (fun station_name =>
                   map (fun device_name => Some (station_name, device_name)) registered_tanks)
                registered_stations.
Proof.
  split; [reflexivity|]. split; [reflexivity|]. split; [|reflexivity].
  apply (bool_decide_unpack _). vm_compute. exact I.
Qed.

(** ** The event loop of the valve slider *)

Lemma setValve_names (now : Z) (self : PaintTankWidget.t) (valve : Q) :
  PaintTankWidget.station_name (PaintTankWidget.setValve now self valve)
    = PaintTankWidget.station_name self
  /\ PaintTankWidget.tank_name (PaintTankWidget.setValve now self valve)
     = PaintTankWidget.tank_name self.
Proof.
  unfold PaintTankWidget.setValve, PaintTankWidget.slider_setValue.
  destruct (PaintTankWidget.timer_slider self); [split; reflexivity|].
  destruct (PaintTankWidget.slider_down self); [split; reflexivity|]. cbn [negb].
  destruct (Z.eqb _ _); split; reflexivity.
Qed.

Lemma handle_names (now : Z) (e : EventLoop.event) (self : PaintTankWidget.t) :
  PaintTankWidget.station_name (EventLoop.handle now e self) = PaintTankWidget.station_name self
  /\ PaintTankWidget.tank_name (EventLoop.handle now e self) = PaintTankWidget.tank_name self.
Proof.
  destruct e; try (split; reflexivity). apply setValve_names.
Qed.

(** The slider stays in its range under the echoes. *)
Lemma setValve_range (now : Z) (self : PaintTankWidget.t) (valve : Q) :
  (0 <= PaintTankWidget.slider_value self <= 100)%Z ->
  (0 <= PaintTankWidget.slider_value (PaintTankWidget.setValve now self valve) <= 100)%Z.
Proof.
  intros Hr. unfold PaintTankWidget.setValve, PaintTankWidget.slider_setValue.
  destruct (PaintTankWidget.timer_slider self); [exact Hr|].
  destruct (PaintTankWidget.slider_down self); [exact Hr|]. cbn [negb].
  destruct (Z.eqb _ _); cbn; lia.
Qed.

Lemma handle_range (now : Z) (e : EventLoop.event) (self : PaintTankWidget.t) :
  in_range e ->
  (0 <= PaintTankWidget.slider_value self <= 100)%Z ->
  (0 <= PaintTankWidget.slider_value (EventLoop.handle now e self) <= 100)%Z.
Proof.
  intros He Hr. destruct e; try exact Hr.
  - exact He.
  - apply setValve_range. exact Hr.
Qed.

(** What [fire_due] returns: the widget with or without its timer, and
    at most the one write of the slider position. *)
Lemma fire_due_cases (now : Z) (self : PaintTankWidget.t) :
  (EventLoop.fire_due now self = (self, [])
   /\ forall d, PaintTankWidget.timer_slider self = Some d -> (now < d)%Z)
  \/ (EventLoop.fire_due now self
      = (PaintTankWidget.set_timer_slider self None, [PaintTankWidget.valve_write self])
      /\ exists d, PaintTankWidget.timer_slider self = Some d /\ (d <= now)%Z).
Proof.
  unfold EventLoop.fire_due. destruct (PaintTankWidget.timer_slider self) as [d|] eqn:E.
  - destruct (Z.leb_spec d now).
    + right. split; [reflexivity|]. exists d. split; [reflexivity | assumption].
    + left. split; [reflexivity|]. intros d' Hd'. injection Hd' as <-. assumption.
  - left. split; [reflexivity|]. intros d Hd. discriminate.
Qed.

(** The good writes of a widget: to its own valve attribute, the value
    within the range of the attribute. *)
Lemma valve_write_good (self : PaintTankWidget.t) :
  (0 <= PaintTankWidget.slider_value self <= 100)%Z ->
  0 <= write_value (PaintTankWidget.valve_write self)
  /\ write_value (PaintTankWidget.valve_write self) <= 1.
Proof.
  intros Hr. unfold PaintTankWidget.valve_write. cbn [write_value].
  unfold Qle, Qdiv, Qmult, Qinv, inject_Z. cbn. lia.
Qed.

Lemma step_invariant (self : PaintTankWidget.t) (te : Z * EventLoop.event) :
  let s' := fst (EventLoop.step self te) in
  let ws := snd (EventLoop.step self te) in
  PaintTankWidget.station_name s' = PaintTankWidget.station_name self
  /\ PaintTankWidget.tank_name s' = PaintTankWidget.tank_name self
  /\ Forall (fun w => write_path w
                      = attribute_path (PaintTankWidget.station_name self)
                          (PaintTankWidget.tank_name self) TANGO_ATTRIBUTE_VALVE) ws
  /\ (in_range (snd te) -> (0 <= PaintTankWidget.slider_value self <= 100)%Z ->
      (0 <= PaintTankWidget.slider_value s' <= 100)%Z
      /\ Forall (fun w => 0 <= write_value w /\ write_value w <= 1) ws).
Proof.
  unfold EventLoop.step.
  destruct (fire_due_cases (fst te) self) as [[-> _]|[-> _]]; cbn [fst snd].
  - destruct (handle_names (fst te) (snd te) self) as [Hs Ht].
    split; [exact Hs|]. split; [exact Ht|]. split; [constructor|].
    intros He Hr. split; [|constructor]. apply handle_range; assumption.
  - destruct (handle_names (fst te) (snd te) (PaintTankWidget.set_timer_slider self None))
      as [Hs Ht].
    split; [exact Hs|]. split; [exact Ht|]. split; [repeat constructor|].
    intros He Hr. split.
    + apply handle_range; assumption.
    + constructor; [|constructor]. apply valve_write_good. exact Hr.
Qed.

Lemma run_invariant (evs : list (Z * EventLoop.event)) : forall self : PaintTankWidget.t,
  let s' := fst (EventLoop.run self evs) in
  let ws := snd (EventLoop.run self evs) in
  PaintTankWidget.station_name s' = PaintTankWidget.station_name self
  /\ PaintTankWidget.tank_name s' = PaintTankWidget.tank_name self
  /\ Forall (fun w => write_path w
                      = attribute_path (PaintTankWidget.station_name self)
                          (PaintTankWidget.tank_name self) TANGO_ATTRIBUTE_VALVE) ws
  /\ (Forall (fun te => in_range (snd te)) evs ->
      (0 <= PaintTankWidget.slider_value self <= 100)%Z ->
      (0 <= PaintTankWidget.slider_value s' <= 100)%Z
      /\ Forall (fun w => 0 <= write_value w /\ write_value w <= 1) ws).
Proof.
  induction evs as [|te evs IH]; intros self.
  - cbn [EventLoop.run fst snd]. split; [reflexivity|]. split; [reflexivity|].
    split; [constructor|]. intros _ Hr. split; [exact Hr | constructor].
  - cbn [EventLoop.run].
    pose proof (step_invariant self te) as Hstep. cbv zeta in Hstep.
    destruct (EventLoop.step self te) as [s1 ws1]. cbn [fst snd] in Hstep.
    destruct Hstep as (Hs1 & Ht1 & Hp1 & Hr1).
    pose proof (IH s1) as Hrun. cbv zeta in Hrun.
    destruct (EventLoop.run s1 evs) as [s2 ws2]. cbn [fst snd] in Hrun |- *.
    destruct Hrun as (Hs2 & Ht2 & Hp2 & Hr2). rewrite Hs1, Ht1 in Hp2.
    split; [congruence|]. split; [congruence|]. split.
    + apply Forall_app. split; assumption.
    + intros Hev Hr. inversion Hev as [|? ? He Hev']; subst.
      destruct (Hr1 He Hr) as [Hr1' Hw1]. destruct (Hr2 Hev' Hr1') as [Hr2' Hw2].
      split; [exact Hr2'|]. apply Forall_app. split; assumption.
Qed.

(** X20. Whatever reaches a widget, and whenever, every write it starts
    goes to the valve attribute of its own tank, and the widget keeps its
    station and tank names. *)
Theorem writes_go_to_own_valve
    (T : Z) (self : PaintTankWidget.t) (evs : list (Z * EventLoop.event)) :
  PaintTankWidget.station_name (fst (EventLoop.run_until T self evs))
    = PaintTankWidget.station_name self
  /\ PaintTankWidget.tank_name (fst (EventLoop.run_until T self evs))
     = PaintTankWidget.tank_name self
  /\ Forall (fun w => write_path w
                      = attribute_path (PaintTankWidget.station_name self)
                          (PaintTankWidget.tank_name self) "valve")
       (snd (EventLoop.run_until T self evs)).
Proof.
  unfold EventLoop.run_until.
  pose proof (run_invariant evs self) as Hrun. cbv zeta in Hrun.
  destruct (EventLoop.run self evs) as [s1 ws1]. cbn [fst snd] in Hrun.
  destruct Hrun as (Hs & Ht & Hp & _).
  destruct (fire_due_cases T s1) as [[-> _]|[-> _]]; cbn [fst snd].
  - split; [exact Hs|]. split; [exact Ht|]. rewrite app_nil_r. exact Hp.
  - split; [exact Hs|]. split; [exact Ht|]. apply Forall_app. split; [exact Hp|].
    constructor; [|constructor]. cbn. rewrite Hs, Ht. reflexivity.
Qed.

(** X21. As long as the requests of the user are slider positions
    (0..100), the slider stays within 0..100 whatever the echoes are, and
    every write carries a valve ratio between 0 and 1. *)
Theorem writes_within_valve_range
    (T : Z) (self : PaintTankWidget.t) (evs : list (Z * EventLoop.event)) :
  (0 <= PaintTankWidget.slider_value self <= 100)%Z ->
  Forall (fun te => in_range (snd te)) evs ->
  (0 <= PaintTankWidget.slider_value (fst (EventLoop.run_until T self evs)) <= 100)%Z
  /\ Forall (fun w => 0 <= write_value w /\ write_value w <= 1)
       (snd (EventLoop.run_until T self evs)).
Proof.
  intros Hr Hev. unfold EventLoop.run_until.
  pose proof (run_invariant evs self) as Hrun. cbv zeta in Hrun.
  destruct (EventLoop.run self evs) as [s1 ws1]. cbn [fst snd] in Hrun.
  destruct Hrun as (_ & _ & _ & Hrange). destruct (Hrange Hev Hr) as [Hr1 Hw1].
  destruct (fire_due_cases T s1) as [[-> _]|[-> _]]; cbn [fst snd].
  - split; [exact Hr1|]. rewrite app_nil_r. exact Hw1.
  - split; [exact Hr1|]. apply Forall_app. split; [exact Hw1|].
    constructor; [|constructor]. apply valve_write_good. exact Hr1.
Qed.

Lemma writes_within_valve_range_witness :
  Forall (fun w => 0 <= write_value w /\ write_value w <= 1)
    (snd (EventLoop.run_until 1000 (fst (PaintTankWidget.init "station1" "cyan" 150))
            [(0, EventLoop.ValueChanged 40); (300, EventLoop.ValveDone 7);
             (600, EventLoop.ValueChanged 100)]%Z)).
Proof.
  apply (writes_within_valve_range 1000 (fst (PaintTankWidget.init "station1" "cyan" 150))
           [(0, EventLoop.ValueChanged 40); (300, EventLoop.ValveDone 7);
            (600, EventLoop.ValueChanged 100)]%Z).
  - simpl. lia.
  - repeat constructor; simpl; lia.
Defined.

Lemma setValve_pending (now : Z) (self : PaintTankWidget.t) (valve : Q) :
  (pending (PaintTankWidget.setValve now self valve) <= pending self + 1)%nat.
Proof.
  unfold PaintTankWidget.setValve, PaintTankWidget.slider_setValue, pending.
  destruct self as [st tk tank sv down [d|]]; cbn; [lia|].
  destruct down; cbn; [lia|].
  destruct (Z.eqb _ _); cbn; lia.
Qed.

Lemma handle_pending (now : Z) (e : EventLoop.event) (self : PaintTankWidget.t) :
  (pending (EventLoop.handle now e self) <= pending self + if arms e then 1 else 0)%nat.
Proof.
  destruct e; cbn [arms EventLoop.handle]; try apply setValve_pending;
    destruct self as [st tk tank sv down [d|]]; unfold pending; cbn; lia.
Qed.

Lemma fire_due_pending (now : Z) (self : PaintTankWidget.t) :
  (length (snd (EventLoop.fire_due now self)) + pending (fst (EventLoop.fire_due now self))
   = pending self)%nat.
Proof.
  unfold EventLoop.fire_due, pending.
  destruct self as [st tk tank sv down [d|]]; cbn; [|reflexivity].
  destruct (Z.leb d now); reflexivity.
Qed.

Lemma run_pending (evs : list (Z * EventLoop.event)) : forall self : PaintTankWidget.t,
  (length (snd (EventLoop.run self evs)) + pending (fst (EventLoop.run self evs))
   <= pending self + length (List.filter arms (map snd evs)))%nat.
Proof.
  induction evs as [|te evs IH]; intros self.
  - cbn. lia.
  - cbn [EventLoop.run]. unfold EventLoop.step.
    pose proof (fire_due_pending (fst te) self) as Hfire.
    destruct (EventLoop.fire_due (fst te) self) as [s0 ws0]. cbn [fst snd] in Hfire.
    pose proof (handle_pending (fst te) (snd te) s0) as Hh.
    pose proof (IH (EventLoop.handle (fst te) (snd te) s0)) as Hrun.
    destruct (EventLoop.run (EventLoop.handle (fst te) (snd te) s0) evs) as [s2 ws2].
    cbn [fst snd map List.filter] in *. rewrite length_app.
    destruct (arms (snd te)); cbn [length]; lia.
Qed.

(** X22. A widget starts no more writes than it had timers pending
    (one or none) plus the requests and echoes that reached it; flow and
    colour signals and the pressing or releasing of the slider start
    none. *)
Theorem writes_bounded_by_requests
    (T : Z) (self : PaintTankWidget.t) (evs : list (Z * EventLoop.event)) :
  (length (snd (EventLoop.run_until T self evs))
   <= pending self + length (List.filter arms (map snd evs)))%nat.
Proof.
  unfold EventLoop.run_until.
  pose proof (run_pending evs self) as Hrun.
  destruct (EventLoop.run self evs) as [s1 ws1]. cbn [fst snd] in Hrun.
  pose proof (fire_due_pending T s1) as Hfire.
  destruct (EventLoop.fire_due T s1) as [s2 ws2]. cbn [fst snd] in Hfire |- *.
  rewrite length_app. lia.
Qed.

(** ** The colour of the level labels *)

(** X24. The level label of a tank is highlighted exactly when the
    level is where the alarms are: at or above 0.8 for the mixer, at or
    below 0.2 for a supply tank.  Hence whenever a sample raises an
    alarm, the label of that sample is highlighted. *)
Theorem label_highlighted_in_alarm_zone (tank_name : string) (level : Q) :
  (get_label_color tank_name level <> color_none
   <-> match role_of tank_name with
       | Ascending => 0.8 <= level
       | Descending => level <= 0.2
       end)
  /\ forall station_name previous_level,
       check_alarm_generation station_name previous_level level tank_name <> [] ->
       get_label_color tank_name level <> color_none.
Proof.
  assert (Hiff : get_label_color tank_name level <> color_none
                 <-> match role_of tank_name with
                     | Ascending => 0.8 <= level
                     | Descending => level <= 0.2
                     end).
  { unfold get_label_color, role_of. destruct (String.eqb tank_name "mixer").
    - unfold Py.geb. destruct (0.8 <=? level) eqn:E.
      + apply leb_le in E. split; [intros _; exact E | intros _; discriminate].
      + split; [intros H; destruct H; reflexivity|].
        intros H. apply leb_le in H. congruence.
    - destruct (level <=? 0.2) eqn:E.
      + apply leb_le in E. split; [intros _; exact E | intros _; discriminate].
      + split; [intros H; destruct H; reflexivity|].
        intros H. apply leb_le in H. congruence. }
  split; [exact Hiff|].
  intros station_name previous_level Halarm. apply Hiff.
  exact (alarm_level_zone station_name previous_level level tank_name Halarm).
Qed.

(** ** The alarm text on floats *)






(** ** Bursts of requests under the coarse timer *)

(** With a timer pending, an echo is dropped before anything is computed. *)
Lemma Fl_setValve_pending (now d : Z) (s : PaintTankWidget.t) (valve : float) :
  PaintTankWidget.timer_slider s = Some d -> Fl.setValve now s valve = Some s.
Proof. intros H. unfold Fl.setValve. rewrite H. reflexivity. Qed.

(** What is neither a request nor a timer event leaves an armed widget
    armed, and starts no write. *)
Lemma react_quiet_armed (self s : PaintTankWidget.t) (last v now : Z) (o : Loop.occurrence) :
  Loop.armed self s last v -> Loop.quiet o = true ->
  exists s1, Loop.react now o s = Some (s1, []) /\ Loop.armed self s1 last v.
Proof.
  intros (Htimer & Hval & Hst & Htk) Hq.
  destruct o; try discriminate Hq; cbn [Loop.react].
  - eexists. split; [reflexivity|]. repeat split; assumption.
  - eexists. split; [reflexivity|]. repeat split; assumption.
  - rewrite (Fl_setValve_pending now _ s valve Htimer).
    eexists. split; [reflexivity|]. repeat split; assumption.
  - eexists. split; [reflexivity|]. repeat split; assumption.
  - eexists. split; [reflexivity|]. repeat split; assumption.
Qed.

(** A request arms the widget, whatever its state. *)
Lemma react_request_arms (self s : PaintTankWidget.t) (now v : Z) :
  PaintTankWidget.station_name s = PaintTankWidget.station_name self ->
  PaintTankWidget.tank_name s = PaintTankWidget.tank_name self ->
  exists s1, Loop.react now (Loop.ValueChanged v) s = Some (s1, [])
             /\ Loop.armed self s1 now v.
Proof.
  intros Hst Htk. eexists. split; [reflexivity|]. repeat split; assumption.
Qed.

(** In an ordered run whose requests follow each other by less than
    [limit], the next request comes less than [limit] after the last. *)
Lemma next_request_soon (limit last tn vn : Z) (rest : list (Z * Loop.occurrence))
    (pre : list (Z * Loop.occurrence)) : forall prev : Z,
  Loop.ordered prev (pre ++ (tn, Loop.ValueChanged vn) :: rest) ->
  Loop.burst_within limit (Some last) (pre ++ (tn, Loop.ValueChanged vn) :: rest) ->
  exists t', (prev <= t' < last + limit)%Z.
Proof.
  induction pre as [|[t o] pre IH]; intros prev Hord Hburst.
  - destruct Hord as [Hle _]. destruct Hburst as [Hlt _]. exists tn. lia.
  - cbn [app Loop.ordered] in Hord. destruct Hord as [Hle Hord].
    destruct (Loop.is_request o) eqn:Hreq.
    + destruct o; try discriminate Hreq. destruct Hburst as [Hlt _]. exists t. lia.
    + assert (Hb : Loop.burst_within limit (Some last)
                     (pre ++ (tn, Loop.ValueChanged vn) :: rest))
        by (destruct o; try discriminate Hreq; exact Hburst).
      destruct (IH t Hord Hb) as (t' & Ht'). exists t'. lia.
Qed.

(** After the last request: quiet occurrences, then the timer event, which
    starts the one write. *)
Lemma tail_phase (self : PaintTankWidget.t) (tn vn T : Z)
    (tail : list (Z * Loop.occurrence)) : forall s : PaintTankWidget.t,
  Loop.armed self s tn vn ->
  Forall (fun to => Loop.quiet (snd to) = true) tail ->
  Loop.timely s (tail ++ [(T, Loop.TimerEvent)]) ->
  exists s',
    Loop.exec s (tail ++ [(T, Loop.TimerEvent)])
    = Some (s', [mkWrite (attribute_path (PaintTankWidget.station_name self)
                            (PaintTankWidget.tank_name self) TANGO_ATTRIBUTE_VALVE)
                         (inject_Z vn / 100)])
    /\ PaintTankWidget.timer_slider s' = None
    /\ (tn + 190 <= T)%Z.
Proof.
  induction tail as [|[t o] tail IH]; intros s Harmed Hquiet Htimely.
  - destruct Harmed as (Htimer & Hval & Hst & Htk).
    cbn [app Loop.timely] in Htimely. rewrite Htimer in Htimely.
    destruct Htimely as [Hfire _]. unfold Loop.coarse_slack in Hfire.
    cbn [app Loop.exec Loop.react PaintTankWidget.timerEvent].
    eexists. split.
    { unfold PaintTankWidget.valve_write. rewrite Hval, Hst, Htk. reflexivity. }
    split; [reflexivity | lia].
  - inversion Hquiet as [|? ? Hq Hquiet']; subst. cbn [snd] in Hq.
    destruct (react_quiet_armed self s tn vn t o Harmed Hq) as (s1 & Hreact & Harmed1).
    cbn [app Loop.timely] in Htimely. rewrite Hreact in Htimely.
    destruct Htimely as [_ Htimely].
    destruct (IH s1 Harmed1 Hquiet' Htimely) as (s' & Hexec & Hnone & HT).
    exists s'. cbn [app Loop.exec]. rewrite Hreact, Hexec. repeat split; assumption.
Qed.

(** From an armed widget to the end of the burst: no timer event can
    come between two requests of the burst. *)
Lemma burst_phase (self : PaintTankWidget.t) (tn vn T : Z)
    (tail : list (Z * Loop.occurrence))
    (pre : list (Z * Loop.occurrence)) : forall (s : PaintTankWidget.t) (last v prev : Z),
  Loop.armed self s last v ->
  Forall (fun to => Loop.quiet (snd to) = true) tail ->
  Loop.ordered prev
    (pre ++ (tn, Loop.ValueChanged vn) :: tail ++ [(T, Loop.TimerEvent)]) ->
  Loop.timely s
    (pre ++ (tn, Loop.ValueChanged vn) :: tail ++ [(T, Loop.TimerEvent)]) ->
  Loop.burst_within 190 (Some last)
    (pre ++ (tn, Loop.ValueChanged vn) :: tail ++ [(T, Loop.TimerEvent)]) ->
  exists s',
    Loop.exec s (pre ++ (tn, Loop.ValueChanged vn) :: tail ++ [(T, Loop.TimerEvent)])
    = Some (s', [mkWrite (attribute_path (PaintTankWidget.station_name self)
                            (PaintTankWidget.tank_name self) TANGO_ATTRIBUTE_VALVE)
                         (inject_Z vn / 100)])
    /\ PaintTankWidget.timer_slider s' = None
    /\ (tn + 190 <= T)%Z.
Proof.
  induction pre as [|[t o] pre IH]; intros s last v prev Harmed Hquiet Hord Htimely Hburst.
  - destruct Harmed as (_ & _ & Hst & Htk).
    destruct (react_request_arms self s tn vn Hst Htk) as (s1 & Hreact & Harmed1).
    cbn [app Loop.timely] in Htimely. rewrite Hreact in Htimely.
    destruct Htimely as [_ Htimely].
    destruct (tail_phase self tn vn T tail s1 Harmed1 Hquiet Htimely) as (s' & Hexec & Hnone & HT).
    exists s'. cbn [app Loop.exec]. rewrite Hreact, Hexec. repeat split; assumption.
  - cbn [app Loop.ordered] in Hord. destruct Hord as [Hle Hord].
    destruct o as [v'| | |valve|flow|color| ].
    + (* a request of the burst *)
      destruct Harmed as (_ & _ & Hst & Htk).
      destruct (react_request_arms self s t v' Hst Htk) as (s1 & Hreact & Harmed1).
      cbn [app Loop.timely] in Htimely. rewrite Hreact in Htimely.
      destruct Htimely as [_ Htimely].
      cbn [app Loop.burst_within] in Hburst. destruct Hburst as [_ Hburst].
      destruct (IH s1 t v' t Harmed1 Hquiet Hord Htimely Hburst) as (s' & Hexec & Hnone & HT).
      exists s'. cbn [app Loop.exec]. rewrite Hreact, Hexec. repeat split; assumption.
    + destruct (react_quiet_armed self s last v t Loop.SliderPressed Harmed eq_refl)
        as (s1 & Hreact & Harmed1).
      cbn [app Loop.timely] in Htimely. rewrite Hreact in Htimely.
      destruct Htimely as [_ Htimely].
      destruct (IH s1 last v t Harmed1 Hquiet Hord Htimely Hburst) as (s' & Hexec & Hnone & HT).
      exists s'. cbn [app Loop.exec]. rewrite Hreact, Hexec. repeat split; assumption.
    + destruct (react_quiet_armed self s last v t Loop.SliderReleased Harmed eq_refl)
        as (s1 & Hreact & Harmed1).
      cbn [app Loop.timely] in Htimely. rewrite Hreact in Htimely.
      destruct Htimely as [_ Htimely].
      destruct (IH s1 last v t Harmed1 Hquiet Hord Htimely Hburst) as (s' & Hexec & Hnone & HT).
      exists s'. cbn [app Loop.exec]. rewrite Hreact, Hexec. repeat split; assumption.
    + destruct (react_quiet_armed self s last v t (Loop.ValveDone valve) Harmed eq_refl)
        as (s1 & Hreact & Harmed1).
      cbn [app Loop.timely] in Htimely. rewrite Hreact in Htimely.
      destruct Htimely as [_ Htimely].
      destruct (IH s1 last v t Harmed1 Hquiet Hord Htimely Hburst) as (s' & Hexec & Hnone & HT).
      exists s'. cbn [app Loop.exec]. rewrite Hreact, Hexec. repeat split; assumption.
    + destruct (react_quiet_armed self s last v t (Loop.FlowDone flow) Harmed eq_refl)
        as (s1 & Hreact & Harmed1).
      cbn [app Loop.timely] in Htimely. rewrite Hreact in Htimely.
      destruct Htimely as [_ Htimely].
      destruct (IH s1 last v t Harmed1 Hquiet Hord Htimely Hburst) as (s' & Hexec & Hnone & HT).
      exists s'. cbn [app Loop.exec]. rewrite Hreact, Hexec. repeat split; assumption.
    + destruct (react_quiet_armed self s last v t (Loop.ColorDone color) Harmed eq_refl)
        as (s1 & Hreact & Harmed1).
      cbn [app Loop.timely] in Htimely. rewrite Hreact in Htimely.
      destruct Htimely as [_ Htimely].
      destruct (IH s1 last v t Harmed1 Hquiet Hord Htimely Hburst) as (s' & Hexec & Hnone & HT).
      exists s'. cbn [app Loop.exec]. rewrite Hreact, Hexec. repeat split; assumption.
    + (* a timer event before the next request: too early for the timer *)
      exfalso. destruct Harmed as (Htimer & _).
      cbn [app Loop.timely] in Htimely. rewrite Htimer in Htimely.
      destruct Htimely as [Hfire _]. unfold Loop.coarse_slack in Hfire.
      cbn [app Loop.burst_within] in Hburst.
      destruct (next_request_soon 190 last tn vn _ pre t Hord Hburst) as (t' & Ht'). lia.
Qed.

(** C6, as stated, fails: two requests 195 ms apart are within the
    200 ms of the timer, but the coarse timer of the first may fire after
    190 ms, between them; then each request gets a write of its own. *)
Lemma burst_gap_195_two_writes :
  Loop.burst_within 200 None
    [(0, Loop.ValueChanged 10); (190, Loop.TimerEvent);
     (195, Loop.ValueChanged 30); (390, Loop.TimerEvent)]%Z
  /\ Loop.ordered 0
       [(0, Loop.ValueChanged 10); (190, Loop.TimerEvent);
        (195, Loop.ValueChanged 30); (390, Loop.TimerEvent)]%Z
  /\ Loop.timely (fst (PaintTankWidget.init "station1" "cyan" 150))
       [(0, Loop.ValueChanged 10); (190, Loop.TimerEvent);
        (195, Loop.ValueChanged 30); (390, Loop.TimerEvent)]%Z
  /\ option_map snd
       (Loop.exec (fst (PaintTankWidget.init "station1" "cyan" 150))
          [(0, Loop.ValueChanged 10); (190, Loop.TimerEvent);
           (195, Loop.ValueChanged 30); (390, Loop.TimerEvent)]%Z)
     = Some [mkWrite "epfl/station1/cyan/valve" (inject_Z 10 / 100);
             mkWrite "epfl/station1/cyan/valve" (inject_Z 30 / 100)].
Proof.
  split; [cbn; lia|]. split; [cbn; lia|]. split; [|reflexivity].
  cbn. unfold Loop.coarse_slack. lia.
Qed.

(** C6, amended. A run that starts with a valve request and in which
    every further request comes less than 190 ms after the request before
    it (the 200 ms coarse timer may fire from 190 ms on), whatever echoes
    and other signals arrive in between: until the first timer event after
    the last request no write is started, no timer event can occur before
    the last request, and that timer event, which comes no earlier than
    190 ms after the last request, starts exactly one write of the valve
    attribute, with the value of the last request; no timer is pending
    afterwards. *)
Theorem burst_single_write_coarse
    (self : PaintTankWidget.t) (t0 : Z) (pre : list (Z * Loop.occurrence))
    (tn vn : Z) (tail : list (Z * Loop.occurrence)) (T : Z) :
  Loop.starts_with_request
    (pre ++ (tn, Loop.ValueChanged vn) :: tail ++ [(T, Loop.TimerEvent)]) ->
  Forall (fun to => Loop.quiet (snd to) = true) tail ->
  Loop.ordered t0
    (pre ++ (tn, Loop.ValueChanged vn) :: tail ++ [(T, Loop.TimerEvent)]) ->
  Loop.timely self
    (pre ++ (tn, Loop.ValueChanged vn) :: tail ++ [(T, Loop.TimerEvent)]) ->
  Loop.burst_within 190 None
    (pre ++ (tn, Loop.ValueChanged vn) :: tail ++ [(T, Loop.TimerEvent)]) ->
  exists s',
    Loop.exec self (pre ++ (tn, Loop.ValueChanged vn) :: tail ++ [(T, Loop.TimerEvent)])
    = Some (s', [mkWrite (attribute_path (PaintTankWidget.station_name self)
                            (PaintTankWidget.tank_name self) TANGO_ATTRIBUTE_VALVE)
                         (inject_Z vn / 100)])
    /\ PaintTankWidget.timer_slider s' = None
    /\ (tn + 190 <= T)%Z.
Proof.
  intros Hstart Hquiet Hord Htimely Hburst.
  destruct pre as [|[t1 o] pre].
  - destruct (react_request_arms self self tn vn eq_refl eq_refl) as (s1 & Hreact & Harmed1).
    cbn [app Loop.timely] in Htimely. rewrite Hreact in Htimely.
    destruct Htimely as [_ Htimely].
    destruct (tail_phase self tn vn T tail s1 Harmed1 Hquiet Htimely) as (s' & Hexec & Hnone & HT).
    exists s'. cbn [app Loop.exec]. rewrite Hreact, Hexec. repeat split; assumption.
  - destruct o as [v1| | | | | | ]; try (destruct Hstart).
    destruct (react_request_arms self self t1 v1 eq_refl eq_refl) as (s1 & Hreact & Harmed1).
    cbn [app Loop.ordered] in Hord. destruct Hord as [_ Hord].
    cbn [app Loop.timely] in Htimely. rewrite Hreact in Htimely.
    destruct Htimely as [_ Htimely].
    cbn [app Loop.burst_within] in Hburst. destruct Hburst as [_ Hburst].
    destruct (burst_phase self tn vn T tail pre s1 t1 v1 t1 Harmed1 Hquiet Hord Htimely Hburst)
      as (s' & Hexec & Hnone & HT).
    exists s'. cbn [app Loop.exec]. rewrite Hreact, Hexec. repeat split; assumption.
Qed.

Lemma burst_single_write_coarse_witness :
  exists s',
    Loop.exec (fst (PaintTankWidget.init "station1" "cyan" 150))
      [(0, Loop.ValueChanged 10); (50, Loop.ValveDone 0.7); (120, Loop.ValueChanged 30);
       (290, Loop.ValueChanged 55); (300, Loop.FlowDone 2); (480, Loop.TimerEvent)]%Z
    = Some (s', [mkWrite "epfl/station1/cyan/valve" (inject_Z 55 / 100)])
    /\ PaintTankWidget.timer_slider s' = None
    /\ (290 + 190 <= 480)%Z.
Proof.
  apply (burst_single_write_coarse (fst (PaintTankWidget.init "station1" "cyan" 150)) 0
           [(0, Loop.ValueChanged 10); (50, Loop.ValveDone 0.7);
            (120, Loop.ValueChanged 30)]%Z
           290 55 [(300%Z, Loop.FlowDone 2)] 480).
  - exact I.
  - repeat constructor.
  - cbn. lia.
  - cbn. unfold Loop.coarse_slack. lia.
  - cbn. lia.
Defined.

(** ** Echoes on floats *)

(** X23. An echoed valve value that reaches an idle widget (no timer
    pending, slider not held) sets the slider to [int(valve*100)], taken
    on the float product and brought into 0..100.  If that moves the
    slider the echo is itself a request: a timer is armed, and the write
    started when it fires carries the new slider position.  If the
    slider stays where it is no timer is armed. *)
Theorem echo_moves_slider_and_is_written_back
    (self : PaintTankWidget.t) (valve : float) (k now : Z) :
  PaintTankWidget.timer_slider self = None ->
  PaintTankWidget.slider_down self = false ->
  Fl.int (valve * 100)%float = Some k ->
  (- 2 ^ 31 <= k < 2 ^ 31)%Z ->
  exists s1,
    Loop.react now (Loop.ValveDone valve) self = Some (s1, [])
    /\ PaintTankWidget.slider_value s1 = Z.max 0 (Z.min 100 k)
    /\ PaintTankWidget.timer_slider s1
       = (if (Z.max 0 (Z.min 100 k) =? PaintTankWidget.slider_value self)%Z then None
          else Some (now + 200)%Z)
    /\ snd (PaintTankWidget.timerEvent s1)
       = [mkWrite (attribute_path (PaintTankWidget.station_name self)
                     (PaintTankWidget.tank_name self) TANGO_ATTRIBUTE_VALVE)
                  (inject_Z (Z.max 0 (Z.min 100 k)) / 100)].
Proof.
  intros Hidle Hdown Hint Hk.
  destruct self as [st tk tank sv down timer]. cbn in Hidle, Hdown. subst timer down.
  cbn [Loop.react]. unfold Fl.setValve.
  cbn [PaintTankWidget.timer_slider PaintTankWidget.slider_down negb]. rewrite Hint.
  assert (Hc : ((- 2 ^ 31 <=? k) && (k <? 2 ^ 31))%Z = true).
  { apply andb_true_iff. split; [apply Z.leb_le | apply Z.ltb_lt]; lia. }
  rewrite Hc. unfold PaintTankWidget.slider_setValue. cbn [PaintTankWidget.slider_value].
  destruct (Z.eqb_spec (Z.max 0 (Z.min 100 k)) sv) as [E|E].
  - eexists. split; [reflexivity|]. cbn. rewrite E. repeat split.
  - eexists. split; [reflexivity|]. cbn. repeat split.
Qed.

Lemma echo_moves_slider_and_is_written_back_witness :
  exists s1,
    Loop.react 1000 (Loop.ValveDone 0.29)
      (PaintTankWidget.set_slider_value (fst (PaintTankWidget.init "station1" "cyan" 150)) 29)
    = Some (s1, [])
    /\ PaintTankWidget.slider_value s1 = 28%Z
    /\ PaintTankWidget.timer_slider s1 = Some 1200%Z
    /\ snd (PaintTankWidget.timerEvent s1)
       = [mkWrite "epfl/station1/cyan/valve" (inject_Z 28 / 100)].
Proof.
  apply (echo_moves_slider_and_is_written_back
           (PaintTankWidget.set_slider_value (fst (PaintTankWidget.init "station1" "cyan" 150)) 29)
           0.29 28 1000).
  - reflexivity.
  - reflexivity.
  - reflexivity.
  - lia.
Defined.
